(** * Timesheets: a shallow embedding of [app.py]

    The program is a Streamlit script over a SQLite file with three tables.
    Every script run executes [init_db], resolves the sidebar identity with
    [authenticate] and renders one dashboard, which issues parameterised SQL
    statements through [run_query] / [fetch_query].

    The development has three layers, as the source has:
    - the store: three tables, each a list of rows kept in rowid order;
    - the SQL statements of the source, one function per statement;
    - the dashboards and the script, with the widget values as inputs.

    Conventions of the model.
    - [hours] is a SQLite REAL fed from a Python float.  The program never
      computes with it; it is only stored and compared with bounds, so it is
      modelled by a rational number.
    - The [role] and [status] columns carry a CHECK that restricts them to an
      enumeration, and the program only ever writes literals of it; they are
      inductive types.
    - [INTEGER PRIMARY KEY] makes [id] the rowid.  A SELECT without ORDER BY
      scans the table in rowid order, except where an index holds every
      column it asks for: [SELECT id, code FROM project_codes] is answered
      from the index of UNIQUE(code), in code order.
    - SQLite does not enforce FOREIGN KEY clauses unless the connection turns
      them on, which the source never does.
    - [status = "pending"] in double quotes is read by SQLite as the string
      literal, since no column has that name. *)

From Stdlib Require Import List ZArith QArith String Bool Lia Sorted Permutation.
From Stdlib Require Import OrderedTypeEx.
Import ListNotations.

Local Open Scope Z_scope.

(** ** Rows and tables *)

Inductive role_value : Type := user | manager.

Inductive status_value : Type := pending | approved | rejected.

Definition role_eqb (a b : role_value) : bool :=
  match a, b with
  | user, user | manager, manager => true
  | _, _ => false
  end.

Definition status_eqb (a b : status_value) : bool :=
  match a, b with
  | pending, pending | approved, approved | rejected, rejected => true
  | _, _ => false
  end.

(** [users (id, username UNIQUE NOT NULL, role NOT NULL CHECK ...)] *)
Record users_row : Type := mk_user {
  u_id : Z;
  u_username : string;
  u_role : role_value
}.

(** [project_codes (id, code UNIQUE NOT NULL, description)] *)
Record project_codes_row : Type := mk_project_code {
  p_id : Z;
  p_code : string;
  p_description : option string
}.

(** [timesheets (id, user_id, project_code_id, date, hours, status, comments)] *)
Record timesheets_row : Type := mk_timesheet {
  id : Z;
  user_id : Z;
  project_code_id : Z;
  date : string;
  hours : Q;
  status : status_value;
  comments : option string
}.

(** The database file: a table is absent until it is created. *)
Record db : Type := mk_db {
  users : option (list users_row);
  project_codes : option (list project_codes_row);
  timesheets : option (list timesheets_row)
}.

Definition set_users (d : db) (t : list users_row) : db :=
  mk_db (Some t) (project_codes d) (timesheets d).

Definition set_project_codes (d : db) (t : list project_codes_row) : db :=
  mk_db (users d) (Some t) (timesheets d).

Definition set_timesheets (d : db) (t : list timesheets_row) : db :=
  mk_db (users d) (project_codes d) (Some t).

(** ** Exceptions and the statement monad *)

Inductive exn : Type :=
| OperationalError   (* no such table *)
| IntegrityError     (* a CHECK or UNIQUE constraint failed *)
| ProgrammingError   (* a parameter of a type sqlite3 cannot bind; the class
                        sqlite3 raises for it from Python 3.11 on, before
                        that sqlite3.InterfaceError *)
| KeyError
| IndexError.

(** A computation either returns or raises; in both cases it leaves the
    store as committed so far ([run_query] commits after each statement, and
    a statement that raises changes nothing). *)
Inductive outcome (A : Type) : Type :=
| Ok (a : A) (d : db)
| Raise (e : exn) (d : db).

Arguments Ok {A} a d.
Arguments Raise {A} e d.

Definition M (A : Type) : Type := db -> outcome A.

Definition ret {A} (a : A) : M A := fun d => Ok a d.

Definition raise {A} (e : exn) : M A := fun d => Raise e d.

Definition bind {A B} (m : M A) (k : A -> M B) : M B :=
  fun d => match m d with
           | Ok a d' => k a d'
           | Raise e d' => Raise e d'
           end.

Notation "x <- m ;; k" := (bind m (fun x => k))
  (at level 61, m at next level, right associativity).
Notation "m ;;; k" := (bind m (fun _ => k))
  (at level 61, right associativity).

Definition store {A} (o : outcome A) : db :=
  match o with
  | Ok _ d => d
  | Raise _ d => d
  end.

Definition raised {A} (o : outcome A) : option exn :=
  match o with
  | Ok _ _ => None
  | Raise e _ => Some e
  end.

(** ** Rowids *)

(** A row inserted without an explicit id gets one more than the largest
    rowid in the table, and 1 in an empty table.  (At the largest 64-bit
    rowid SQLite falls back to a random search; no run of the program gets
    there and the model leaves it out.) *)
Definition next_rowid (ids : list Z) : Z :=
  match ids with
  | [] => 1
  | i :: rest => fold_right Z.max i rest + 1
  end.

(** ** The schema: [init_db] *)

(** [CREATE TABLE IF NOT EXISTS]: an absent table is created empty, an
    existing one is left alone. *)
Definition create_table_if_not_exists {A} (t : option (list A)) : option (list A) :=
  match t with
  | None => Some []
  | Some rows => Some rows
  end.

Definition init_db : M unit :=
  fun d =>
    Ok tt (mk_db (create_table_if_not_exists (users d))
                 (create_table_if_not_exists (project_codes d))
                 (create_table_if_not_exists (timesheets d))).

(** ** Statements on [timesheets] *)

(** [CHECK(hours >= 0)] *)
Definition check_hours (h : Q) : bool := Qle_bool 0 h.

Definition with_timesheets {A} (k : list timesheets_row -> M A) : M A :=
  fun d => match timesheets d with
           | None => Raise OperationalError d
           | Some t => k t d
           end.

Definition commit_timesheets (t : list timesheets_row) : M unit :=
  fun d => Ok tt (set_timesheets d t).

(** The rows of an UPDATE: those the WHERE clause selects are rewritten in
    place; [rowcount] is how many were selected. *)
Definition update_rows {A} (where_ : A -> bool) (set_ : A -> A) (t : list A) : list A :=
  map (fun r => if where_ r then set_ r else r) t.

Definition delete_rows {A} (where_ : A -> bool) (t : list A) : list A :=
  filter (fun r => negb (where_ r)) t.

Definition select_rows {A} (where_ : A -> bool) (t : list A) : list A :=
  filter where_ t.

Definition rowcount {A} (where_ : A -> bool) (t : list A) : nat :=
  List.length (filter where_ t).

(** [INSERT INTO timesheets (user_id, project_code_id, date, hours, status)
     VALUES (?, ?, ?, ?, ?)]; [comments] is not listed and defaults to NULL. *)
Definition insert_timesheet (uid pcid : Z) (dt : string) (h : Q) (st : status_value)
  : M nat :=
  with_timesheets (fun t =>
    if check_hours h then
      commit_timesheets
        (t ++ [mk_timesheet (next_rowid (map id t)) uid pcid dt h st None]) ;;;
      ret 1%nat
    else raise IntegrityError).

(** [UPDATE timesheets SET project_code_id = ?, date = ?, hours = ?
     WHERE id = ? AND user_id = ?] *)
Definition update_timesheet_of_owner (pcid : Z) (dt : string) (h : Q)
  (timesheet_id uid : Z) : M nat :=
  with_timesheets (fun t =>
    let where_ r := (id r =? timesheet_id) && (user_id r =? uid) in
    let set_ r := mk_timesheet (id r) (user_id r) pcid dt h (status r) (comments r) in
    if (0 <? rowcount where_ t)%nat && negb (check_hours h) then raise IntegrityError
    else commit_timesheets (update_rows where_ set_ t) ;;; ret (rowcount where_ t)).

(** [DELETE FROM timesheets WHERE id = ? AND user_id = ?] *)
Definition delete_timesheet_of_owner (timesheet_id uid : Z) : M nat :=
  with_timesheets (fun t =>
    let where_ r := (id r =? timesheet_id) && (user_id r =? uid) in
    commit_timesheets (delete_rows where_ t) ;;; ret (rowcount where_ t)).

(** [SELECT * FROM timesheets WHERE user_id = ?] *)
Definition select_timesheets_of_user (uid : Z) : M (list timesheets_row) :=
  with_timesheets (fun t => ret (select_rows (fun r => user_id r =? uid) t)).

(** [SELECT id, date, status, comments FROM timesheets
     WHERE user_id = ? AND status = "rejected"] *)
Definition select_rejected_of_user (uid : Z)
  : M (list (Z * string * status_value * option string)) :=
  with_timesheets (fun t =>
    ret (map (fun r => (id r, date r, status r, comments r))
             (select_rows (fun r => (user_id r =? uid) && status_eqb (status r) rejected) t))).

(** [UPDATE timesheets SET hours = ?, status = "pending" WHERE id = ?] *)
Definition update_resubmit (h : Q) (timesheet_id : Z) : M nat :=
  with_timesheets (fun t =>
    let where_ r := id r =? timesheet_id in
    let set_ r :=
      mk_timesheet (id r) (user_id r) (project_code_id r) (date r) h pending (comments r) in
    if (0 <? rowcount where_ t)%nat && negb (check_hours h) then raise IntegrityError
    else commit_timesheets (update_rows where_ set_ t) ;;; ret (rowcount where_ t)).

(** [SELECT * FROM timesheets WHERE status = "pending"] *)
Definition select_pending : M (list timesheets_row) :=
  with_timesheets (fun t => ret (select_rows (fun r => status_eqb (status r) pending) t)).

(** [UPDATE timesheets SET status = "approved", comments = ? WHERE id = ?]
    and the same with ["rejected"]. *)
Definition update_review (st : status_value) (cm : string) (timesheet_id : Z) : M nat :=
  with_timesheets (fun t =>
    let where_ r := id r =? timesheet_id in
    let set_ r :=
      mk_timesheet (id r) (user_id r) (project_code_id r) (date r) (hours r) st (Some cm) in
    commit_timesheets (update_rows where_ set_ t) ;;; ret (rowcount where_ t)).

Definition update_approve : string -> Z -> M nat := update_review approved.

Definition update_reject : string -> Z -> M nat := update_review rejected.

(** ** Statements on [users] *)

Definition with_users {A} (k : list users_row -> M A) : M A :=
  fun d => match users d with
           | None => Raise OperationalError d
           | Some t => k t d
           end.

Definition commit_users (t : list users_row) : M unit :=
  fun d => Ok tt (set_users d t).

(** [SELECT id FROM users WHERE username = ? AND role = ?] *)
Definition select_user_id (name : string) (ro : role_value) : M (list Z) :=
  with_users (fun t =>
    ret (map u_id
             (select_rows (fun r => String.eqb (u_username r) name && role_eqb (u_role r) ro) t))).

(** [SELECT * FROM users] *)
Definition select_users : M (list users_row) :=
  with_users (fun t => ret t).

(** [INSERT INTO users (username, role) VALUES (?, ?)]; [username] is UNIQUE. *)
Definition insert_user (name : string) (ro : role_value) : M nat :=
  with_users (fun t =>
    if existsb (fun r => String.eqb (u_username r) name) t then raise IntegrityError
    else commit_users (t ++ [mk_user (next_rowid (map u_id t)) name ro]) ;;; ret 1%nat).

(** [UPDATE users SET username = ?, role = ? WHERE id = ?]; it fails when a
    selected row would take the name of some other row. *)
Definition update_user (name : string) (ro : role_value) (uid : Z) : M nat :=
  with_users (fun t =>
    let where_ r := u_id r =? uid in
    let set_ r := mk_user (u_id r) name ro in
    let clash r :=
      existsb (fun r' => negb (u_id r' =? u_id r) && String.eqb (u_username r') name) t in
    if existsb (fun r => where_ r && clash r) t then raise IntegrityError
    else commit_users (update_rows where_ set_ t) ;;; ret (rowcount where_ t)).

(** [DELETE FROM users WHERE id = ?] *)
Definition delete_user (uid : Z) : M nat :=
  with_users (fun t =>
    let where_ r := u_id r =? uid in
    commit_users (delete_rows where_ t) ;;; ret (rowcount where_ t)).

(** ** Statements on [project_codes] *)

Definition with_project_codes {A} (k : list project_codes_row -> M A) : M A :=
  fun d => match project_codes d with
           | None => Raise OperationalError d
           | Some t => k t d
           end.

Definition commit_project_codes (t : list project_codes_row) : M unit :=
  fun d => Ok tt (set_project_codes d t).

(** The index of UNIQUE(code): the rows by code, in byte order (a prefix
    before its extensions); rows of equal code, which the constraint rules
    out, would keep their rowid order. *)
Fixpoint insert_by_code (r : project_codes_row) (l : list project_codes_row)
  : list project_codes_row :=
  match l with
  | [] => [r]
  | x :: rest =>
      if String.ltb (p_code x) (p_code r) then x :: insert_by_code r rest
      else r :: x :: rest
  end.

Definition by_code (t : list project_codes_row) : list project_codes_row :=
  fold_right insert_by_code [] t.

(** [SELECT id, code FROM project_codes]: both columns are in the index of
    UNIQUE(code), and SQLite reads them from it, so in code order. *)
Definition select_id_code : M (list (Z * string)) :=
  with_project_codes (fun t => ret (map (fun r => (p_id r, p_code r)) (by_code t))).

(** [SELECT * FROM project_codes] *)
Definition select_project_codes : M (list project_codes_row) :=
  with_project_codes (fun t => ret t).

(** [SELECT id FROM project_codes WHERE code = ?], with the parameter the
    Modify form passes: the option chosen in a select box over the rows
    [(id, code)] of [get_project_codes], so a tuple, or None when there is no
    row.  sqlite3 cannot bind a tuple and raises ProgrammingError; None is
    bound as NULL, and [code = NULL] holds for no row. *)
Definition select_project_code_id (param : option (Z * string)) : M (list Z) :=
  with_project_codes (fun t =>
    match param with
    | Some _ => raise ProgrammingError
    | None => ret []
    end).

(** [INSERT INTO project_codes (code, description) VALUES (?, ?)] *)
Definition insert_project_code (cd ds : string) : M nat :=
  with_project_codes (fun t =>
    if existsb (fun r => String.eqb (p_code r) cd) t then raise IntegrityError
    else commit_project_codes
           (t ++ [mk_project_code (next_rowid (map p_id t)) cd (Some ds)]) ;;;
         ret 1%nat).

(** [UPDATE project_codes SET code = ?, description = ? WHERE id = ?] *)
Definition update_project_code (cd ds : string) (pcid : Z) : M nat :=
  with_project_codes (fun t =>
    let where_ r := p_id r =? pcid in
    let set_ r := mk_project_code (p_id r) cd (Some ds) in
    let clash r :=
      existsb (fun r' => negb (p_id r' =? p_id r) && String.eqb (p_code r') cd) t in
    if existsb (fun r => where_ r && clash r) t then raise IntegrityError
    else commit_project_codes (update_rows where_ set_ t) ;;; ret (rowcount where_ t)).

(** [DELETE FROM project_codes WHERE id = ?] *)
Definition delete_project_code (pcid : Z) : M nat :=
  with_project_codes (fun t =>
    let where_ r := p_id r =? pcid in
    commit_project_codes (delete_rows where_ t) ;;; ret (rowcount where_ t)).

(** ** Python helpers *)

(** [run_query(query, params)] opens a connection, executes the statement
    with its parameters and commits.  The statement takes effect whole, or
    it raises and nothing is changed.  The result stands for the cursor: the
    row count of an INSERT, UPDATE or DELETE, the rows of a SELECT. *)
Definition run_query {A} (statement : M A) : M A := statement.

(** [fetch_query(query, params)]: [run_query], then [fetchall]. *)
Definition fetch_query {A} (statement : M (list A)) : M (list A) :=
  run_query statement.

Definition get_project_codes : M (list (Z * string)) := fetch_query select_id_code.

(** [user[0][0] if user else None] *)
Definition authenticate (name : string) (ro : role_value) : M (option Z) :=
  found <- fetch_query (select_user_id name ro) ;;
  ret (match found with
       | [] => None
       | i :: _ => Some i
       end).

(** A Python dict with string keys: insertion ordered, a later binding of a
    key replaces the value and keeps the key's place. *)
Fixpoint dict_set (k : string) (v : Z) (m : list (string * Z)) : list (string * Z) :=
  match m with
  | [] => [(k, v)]
  | (k', v') :: rest =>
      if String.eqb k' k then (k', v) :: rest else (k', v') :: dict_set k v rest
  end.

Fixpoint dict_get (k : string) (m : list (string * Z)) : option Z :=
  match m with
  | [] => None
  | (k', v') :: rest => if String.eqb k' k then Some v' else dict_get k rest
  end.

(** [{code[1]: code[0] for code in project_codes}] *)
Definition project_code_map (pcs : list (Z * string)) : list (string * Z) :=
  fold_left (fun m c => dict_set (snd c) (fst c) m) pcs [].

(** ** Widgets *)

(** [st.selectbox]: one of the options, the first by default; None when
    there is no option. *)
Definition selectbox {A} (options : list A) (choice : nat) : option A :=
  match options with
  | [] => None
  | o :: _ => Some (nth choice options o)
  end.

(** [st.number_input(..., min_value=0.0, max_value=24.0)] only yields values
    within its bounds. *)
Definition hours_input_ok (h : Q) : Prop := (0 <= h /\ h <= 24)%Q.

(** [st.number_input(..., min_value=1)] *)
Definition id_input_ok (i : Z) : Prop := 1 <= i.

(** Truth value of a Python int. *)
Definition truthy (i : Z) : bool := negb (i =? 0).

(** ** The user dashboard *)

Inductive user_action : Type :=
| CreateTimesheet (project_code : nat) (dt : string) (h : Q) (submitted : bool)
| ModifyTimesheet (timesheet_id : Z) (project_code : nat) (dt : string) (h : Q)
                  (submitted : bool)
| DeleteTimesheet (timesheet_id : Z) (clicked : bool)
| ViewTimesheets
| RespondToComments (modified_hours : Z -> Q) (clicked : option Z).

Definition user_action_ok (a : user_action) : Prop :=
  match a with
  | CreateTimesheet _ _ h _ => hours_input_ok h
  | ModifyTimesheet tid _ _ h _ => id_input_ok tid /\ hours_input_ok h
  | DeleteTimesheet tid _ => id_input_ok tid
  | ViewTimesheets => True
  | RespondToComments mh _ => forall k, hours_input_ok (mh k)
  end.

(** [st.button(..., key=f"resubmit_{id}")]: true in the run its click
    triggered, and one click triggers one run. *)
Definition resubmit_button (clicked : option Z) (tid : Z) : bool :=
  match clicked with
  | Some k => k =? tid
  | None => false
  end.

(** The loop of "Respond to Comments" over the rows fetched before it. *)
Fixpoint respond_loop (listed : list (Z * string * status_value * option string))
  (modified_hours : Z -> Q) (clicked : option Z) : M unit :=
  match listed with
  | [] => ret tt
  | (tid, _, _, _) :: rest =>
      (if resubmit_button clicked tid
       then run_query (update_resubmit (modified_hours tid) tid) ;;; ret tt
       else ret tt) ;;;
      respond_loop rest modified_hours clicked
  end.

Definition user_dashboard (uid : Z) (a : user_action) : M unit :=
  pcs <- get_project_codes ;;
  let pcmap := project_code_map pcs in
  match a with
  | CreateTimesheet choice dt h submitted =>
      let project_code := selectbox (map fst pcmap) choice in
      if submitted then
        match project_code with
        | None => raise KeyError
        | Some cd =>
            match dict_get cd pcmap with
            | None => raise KeyError
            | Some pcid => run_query (insert_timesheet uid pcid dt h pending) ;;; ret tt
            end
        end
      else ret tt
  | ModifyTimesheet timesheet_id choice dt h submitted =>
      let project_code := selectbox pcs choice in
      if submitted then
        found <- fetch_query (select_project_code_id project_code) ;;
        match found with
        | [] => raise IndexError
        | pcid :: _ =>
            run_query (update_timesheet_of_owner pcid dt h timesheet_id uid) ;;; ret tt
        end
      else ret tt
  | DeleteTimesheet timesheet_id clicked =>
      if clicked then run_query (delete_timesheet_of_owner timesheet_id uid) ;;; ret tt
      else ret tt
  | ViewTimesheets =>
      fetch_query (select_timesheets_of_user uid) ;;; ret tt
  | RespondToComments modified_hours clicked =>
      listed <- fetch_query (select_rejected_of_user uid) ;;
      respond_loop listed modified_hours clicked
  end.

(** ** The manager dashboard *)

Inductive review_button : Type :=
| approve_ (tid : Z)
| reject_ (tid : Z).

Definition approve_button (clicked : option review_button) (tid : Z) : bool :=
  match clicked with
  | Some (approve_ k) => k =? tid
  | _ => false
  end.

Definition reject_button (clicked : option review_button) (tid : Z) : bool :=
  match clicked with
  | Some (reject_ k) => k =? tid
  | _ => false
  end.

Inductive crud : Type := Create | Modify | Delete.

Inductive manager_action : Type :=
| ReviewTimesheets (comments_for : Z -> string) (clicked : option review_button)
| ManageProjectCodes (action : crud) (cd ds : string) (pcid : Z) (submitted : bool)
| ManageUsers (action : crud) (name : string) (ro : role_value) (uid : Z)
              (submitted : bool).

Definition manager_action_ok (a : manager_action) : Prop :=
  match a with
  | ReviewTimesheets _ _ => True
  | ManageProjectCodes _ _ _ pcid _ => id_input_ok pcid
  | ManageUsers _ _ _ uid _ => id_input_ok uid
  end.

(** The loop of "Review Timesheets" over the rows fetched before it. *)
Fixpoint review_loop (listed : list timesheets_row) (comments_for : Z -> string)
  (clicked : option review_button) : M unit :=
  match listed with
  | [] => ret tt
  | timesheet :: rest =>
      let tid := id timesheet in
      (if approve_button clicked tid
       then run_query (update_approve (comments_for tid) tid) ;;; ret tt
       else ret tt) ;;;
      (if reject_button clicked tid
       then run_query (update_reject (comments_for tid) tid) ;;; ret tt
       else ret tt) ;;;
      review_loop rest comments_for clicked
  end.

Definition manager_dashboard (manager_id : Z) (a : manager_action) : M unit :=
  match a with
  | ReviewTimesheets comments_for clicked =>
      listed <- fetch_query select_pending ;;
      review_loop listed comments_for clicked
  | ManageProjectCodes action cd ds pcid submitted =>
      fetch_query select_project_codes ;;;
      if submitted then
        match action with
        | Create => run_query (insert_project_code cd ds) ;;; ret tt
        | Modify =>
            if truthy pcid then run_query (update_project_code cd ds pcid) ;;; ret tt
            else ret tt
        | Delete =>
            if truthy pcid then run_query (delete_project_code pcid) ;;; ret tt
            else ret tt
        end
      else ret tt
  | ManageUsers action name ro uid submitted =>
      fetch_query select_users ;;;
      if submitted then
        match action with
        | Create => run_query (insert_user name ro) ;;; ret tt
        | Modify =>
            if truthy uid then run_query (update_user name ro uid) ;;; ret tt else ret tt
        | Delete =>
            if truthy uid then run_query (delete_user uid) ;;; ret tt else ret tt
        end
      else ret tt
  end.

(** ** The script *)

Inductive sidebar_role : Type := User | Manager.

(** The widget values of one run of the script. *)
Record run_input : Type := mk_input {
  role : sidebar_role;
  username : string;
  user_page : user_action;
  manager_page : manager_action
}.

Definition run_input_ok (i : run_input) : Prop :=
  user_action_ok (user_page i) /\ manager_action_ok (manager_page i).

Definition app (i : run_input) : M unit :=
  init_db ;;;
  match role i with
  | User =>
      found <- authenticate (username i) user ;;
      match found with
      | Some uid => if truthy uid then user_dashboard uid (user_page i) else ret tt
      | None => ret tt
      end
  | Manager =>
      found <- authenticate (username i) manager ;;
      match found with
      | Some mid => if truthy mid then manager_dashboard mid (manager_page i) else ret tt
      | None => ret tt
      end
  end.

(** The store after one run, whether the run ended or raised. *)
Definition run (i : run_input) (d : db) : db := store (app i d).

(** Stores reachable from [d0] by runs of the script. *)
Inductive reachable (d0 : db) : db -> Prop :=
| reach_start : reachable d0 d0
| reach_run d i : reachable d0 d -> run_input_ok i -> reachable d0 (run i d).

(** * Vocabulary of the properties *)

(** The rows of [timesheets], none while the table is absent. *)
Definition rows (d : db) : list timesheets_row :=
  match timesheets d with
  | Some t => t
  | None => []
  end.

(** [id] is the primary key: a table holds its rows in increasing id. *)
Definition ids_sorted (t : list timesheets_row) : Prop :=
  StronglySorted Z.lt (map id t).


(** What each statement writes into a selected row. *)
Definition set_resubmit (h : Q) (r : timesheets_row) : timesheets_row :=
  mk_timesheet (id r) (user_id r) (project_code_id r) (date r) h pending (comments r).

Definition set_review (st : status_value) (cm : string) (r : timesheets_row)
  : timesheets_row :=
  mk_timesheet (id r) (user_id r) (project_code_id r) (date r) (hours r) st (Some cm).

Definition has_id (k : Z) (r : timesheets_row) : bool := id r =? k.

Definition owned (k uid : Z) (r : timesheets_row) : bool :=
  (id r =? k) && (user_id r =? uid).

Definition listed_id (x : Z * string * status_value * option string) : Z :=
  fst (fst (fst x)).

(** The rows "Respond to Comments" lists for [uid]: their rejected entries. *)
Definition listed_for (uid : Z) (r : timesheets_row) : bool :=
  (user_id r =? uid) && status_eqb (status r) rejected.

(** The workflow operation a run performs, read off its inputs. *)
Inductive operation : Type := create | approve | reject | resubmit.

Definition user_operation (a : user_action) : option operation :=
  match a with
  | CreateTimesheet _ _ _ true => Some create
  | RespondToComments _ (Some _) => Some resubmit
  | _ => None
  end.

Definition manager_operation (a : manager_action) : option operation :=
  match a with
  | ReviewTimesheets _ (Some (approve_ _)) => Some approve
  | ReviewTimesheets _ (Some (reject_ _)) => Some reject
  | _ => None
  end.

Definition operation_of (i : run_input) : option operation :=
  match role i with
  | User => user_operation (user_page i)
  | Manager => manager_operation (manager_page i)
  end.

(** The changes of the table a run can make, with the operation it performs. *)
Inductive table_step (t : list timesheets_row)
  : option operation -> list timesheets_row -> Prop :=
| step_none o : table_step t o t
| step_create uid pcid dt h (Hh : hours_input_ok h) :
    table_step t (Some create)
      (t ++ [mk_timesheet (next_rowid (map id t)) uid pcid dt h pending None])
| step_delete k uid :
    table_step t None (delete_rows (owned k uid) t)
| step_resubmit uid h r
    (Hh : hours_input_ok h) (Hin : In r t) (Hu : user_id r = uid)
    (Hst : status r = rejected) :
    table_step t (Some resubmit) (update_rows (has_id (id r)) (set_resubmit h) t)
| step_approve cm r (Hin : In r t) (Hst : status r = pending) :
    table_step t (Some approve) (update_rows (has_id (id r)) (set_review approved cm) t)
| step_reject cm r (Hin : In r t) (Hst : status r = pending) :
    table_step t (Some reject) (update_rows (has_id (id r)) (set_review rejected cm) t).

(** The transition table of the workflow: the status before (none for an
    entry that did not exist), the operation, the status after. *)
Inductive transition : option status_value -> operation -> status_value -> Prop :=
| transition_create : transition None create pending
| transition_approve : transition (Some pending) approve approved
| transition_reject : transition (Some pending) reject rejected
| transition_resubmit : transition (Some rejected) resubmit pending.

(** The status of the entry with id [k], if there is one. *)
Definition status_of (t : list timesheets_row) (k : Z) : option status_value :=
  option_map status (find (has_id k) t).

Definition value {A} (o : outcome A) : option A :=
  match o with
  | Ok a _ => Some a
  | Raise _ _ => None
  end.

(** What a review may change in a row: status and comment of the reviewed
    entry, nothing of any other. *)
Definition review_frame (k : option Z) (x x' : timesheets_row) : Prop :=
  id x' = id x /\ user_id x' = user_id x /\ project_code_id x' = project_code_id x /\
  date x' = date x /\ hours x' = hours x /\ (Some (id x) <> k -> x' = x).

Definition reviewed (clicked : option review_button) : option Z :=
  match clicked with
  | Some (approve_ k) => Some k
  | Some (reject_ k) => Some k
  | None => None
  end.

(** [init_db] called [n] times in a row. *)
Fixpoint init_db_times (n : nat) (d : db) : db :=
  match n with
  | O => d
  | S n' => init_db_times n' (store (init_db d))
  end.

Definition schema_exists (d : db) : Prop :=
  users d <> None /\ project_codes d <> None /\ timesheets d <> None.

(** ** A scenario *)

(** Two users and a project code put into the store by hand, as the script
    offers no way to create the first manager; then the runs of the
    scenario: alice creates an entry, bob rejects it, alice resubmits it. *)
Definition scenario_seed : db :=
  mk_db (Some [mk_user 1 "alice" user; mk_user 2 "bob" manager])
        (Some [mk_project_code 1 "ENG" (Some "Engineering"%string)])
        None.

Definition idle_user_page : user_action := ViewTimesheets.

Definition idle_manager_page : manager_action := ReviewTimesheets (fun _ => ""%string) None.

Definition alice_creates : run_input :=
  mk_input User "alice" (CreateTimesheet 0 "2024-01-05" 8 true) idle_manager_page.

Definition bob_rejects : run_input :=
  mk_input Manager "bob" idle_user_page
    (ReviewTimesheets (fun _ => "missing approval"%string) (Some (reject_ 1))).

Definition bob_approves : run_input :=
  mk_input Manager "bob" idle_user_page
    (ReviewTimesheets (fun _ => "fine"%string) (Some (approve_ 1))).

Definition alice_resubmits : run_input :=
  mk_input User "alice" (RespondToComments (fun _ => 6%Q) (Some 1)) idle_manager_page.

Definition scenario_created : db := run alice_creates scenario_seed.

Definition scenario_rejected : db := run bob_rejects scenario_created.

Definition scenario_resubmitted : db := run alice_resubmits scenario_rejected.

Definition scenario_approved : db := run bob_approves scenario_created.



(** A second scenario: two contributors and two project codes, the second
    code before the first in code order.  alice books on ENG, carol and then
    alice on ABC, and bob rejects the first entry. *)
Definition team_seed : db :=
  mk_db (Some [mk_user 1 "alice" user; mk_user 2 "bob" manager; mk_user 3 "carol" user])
        (Some [mk_project_code 1 "ENG" (Some "Engineering"%string);
               mk_project_code 2 "ABC" (Some "Alphabet"%string)])
        None.

Definition alice_books_eng : run_input :=
  mk_input User "alice" (CreateTimesheet 1 "2024-01-05" 8 true) idle_manager_page.

Definition carol_books_abc : run_input :=
  mk_input User "carol" (CreateTimesheet 0 "2024-01-05" 7 true) idle_manager_page.

Definition alice_books_abc : run_input :=
  mk_input User "alice" (CreateTimesheet 0 "2024-01-06" 6 true) idle_manager_page.

Definition team_store : db :=
  run bob_rejects (run alice_books_abc (run carol_books_abc (run alice_books_eng team_seed))).

(** ** Vocabulary of the further properties *)

(** The rows of [users] and of [project_codes], none while the table is
    absent. *)
Definition users_rows (d : db) : list users_row :=
  match users d with
  | Some t => t
  | None => []
  end.

Definition project_codes_rows (d : db) : list project_codes_row :=
  match project_codes d with
  | Some t => t
  | None => []
  end.

(** What the schema asks of the two tables: [id] is the primary key, so the
    rows are in increasing id, and the name column is UNIQUE. *)
Definition users_ok (t : list users_row) : Prop :=
  StronglySorted Z.lt (map u_id t) /\ NoDup (map u_username t).

Definition project_codes_ok (t : list project_codes_row) : Prop :=
  StronglySorted Z.lt (map p_id t) /\ NoDup (map p_code t).

(** The role the script looks up for each choice of the sidebar. *)
Definition required_role (r : sidebar_role) : role_value :=
  match r with
  | User => user
  | Manager => manager
  end.

(** The dashboard the script opens for an identity. *)
Definition dashboard (i : run_input) (ident : Z) : M unit :=
  match role i with
  | User => user_dashboard ident (user_page i)
  | Manager => manager_dashboard ident (manager_page i)
  end.

(** A run in which no button is pressed and no form submitted. *)
Definition idle_user_action (a : user_action) : bool :=
  match a with
  | CreateTimesheet _ _ _ submitted => negb submitted
  | ModifyTimesheet _ _ _ _ submitted => negb submitted
  | DeleteTimesheet _ clicked => negb clicked
  | ViewTimesheets => true
  | RespondToComments _ None => true
  | RespondToComments _ (Some _) => false
  end.

Definition idle_manager_action (a : manager_action) : bool :=
  match a with
  | ReviewTimesheets _ None => true
  | ReviewTimesheets _ (Some _) => false
  | ManageProjectCodes _ _ _ _ submitted => negb submitted
  | ManageUsers _ _ _ _ submitted => negb submitted
  end.

Definition idle (i : run_input) : bool :=
  match role i with
  | User => idle_user_action (user_page i)
  | Manager => idle_manager_action (manager_page i)
  end.

(** A computation keeps [P]: the store it leaves satisfies [P] when the
    store it started from does, whether it returns or raises. *)
Definition preserves (P : db -> Prop) {A} (m : M A) : Prop :=
  forall d, P d -> P (store (m d)).

(** On a store that has the three tables, a computation raises nothing
    outside [Q]. *)
Definition raises_only (Q : exn -> Prop) {A} (m : M A) : Prop :=
  forall d e, schema_exists d -> raised (m d) = Some e -> Q e.

(** The exceptions a run can end in, by the role chosen in the sidebar. *)
Definition user_exn (e : exn) : Prop :=
  e = KeyError \/ e = ProgrammingError \/ e = IndexError.

Definition manager_exn (e : exn) : Prop := e = IntegrityError.

(** The database file before the first run. *)
Definition empty_file : db := mk_db None None None.

(** The status a review button writes, and the entry it belongs to. *)
Definition review_status (b : review_button) : status_value :=
  match b with
  | approve_ _ => approved
  | reject_ _ => rejected
  end.

Definition review_id (b : review_button) : Z :=
  match b with
  | approve_ k => k
  | reject_ k => k
  end.

(** The UNIQUE check of the two UPDATEs of a name column: a selected row
    would take the name of a row with another id. *)
Definition name_clash (t : list users_row) (name : string) (uid : Z) : bool :=
  existsb (fun r => (u_id r =? uid) &&
                    existsb (fun r' => negb (u_id r' =? u_id r) &&
                                       String.eqb (u_username r') name) t) t.

Definition code_clash (t : list project_codes_row) (cd : string) (pcid : Z) : bool :=
  existsb (fun r => (p_id r =? pcid) &&
                    existsb (fun r' => negb (p_id r' =? p_id r) &&
                                       String.eqb (p_code r') cd) t) t.

(** The table a run writes, by the role and the page of its inputs. *)
Inductive table : Type := T_users | T_project_codes | T_timesheets.

Definition written (i : run_input) : table :=
  match role i with
  | User => T_timesheets
  | Manager =>
      match manager_page i with
      | ReviewTimesheets _ _ => T_timesheets
      | ManageProjectCodes _ _ _ _ _ => T_project_codes
      | ManageUsers _ _ _ _ _ => T_users
      end
  end.

(** * Properties *)

(** ** Lists of rows *)

Section Rows.
Context {A : Type}.
Variables (where_ : A -> bool) (set_ : A -> A).

Lemma update_rows_none (t : list A) :
  (forall r, In r t -> where_ r = false) -> update_rows where_ set_ t = t.
Proof.
  induction t as [|r t IH]; intros H; simpl; [reflexivity|].
  rewrite (H r (or_introl eq_refl)), IH; [reflexivity|].
  intros x Hx. apply H. now right.
Qed.

Lemma delete_rows_none (t : list A) :
  (forall r, In r t -> where_ r = false) -> delete_rows where_ t = t.
Proof.
  induction t as [|r t IH]; intros H; simpl; [reflexivity|].
  rewrite (H r (or_introl eq_refl)). simpl. f_equal. apply IH.
  intros x Hx. apply H. now right.
Qed.

Lemma rowcount_none (t : list A) :
  (forall r, In r t -> where_ r = false) -> rowcount where_ t = 0%nat.
Proof.
  unfold rowcount.
  induction t as [|r t IH]; intros H; simpl; [reflexivity|].
  rewrite (H r (or_introl eq_refl)). apply IH.
  intros x Hx. apply H. now right.
Qed.

Hypothesis where_set : forall r, where_ (set_ r) = where_ r.

Lemma rowcount_update_rows (t : list A) :
  rowcount where_ (update_rows where_ set_ t) = rowcount where_ t.
Proof.
  unfold rowcount, update_rows.
  induction t as [|r t IH]; simpl; [reflexivity|].
  destruct (where_ r) eqn:E.
  - rewrite where_set, E. simpl. now rewrite IH.
  - rewrite E. exact IH.
Qed.

Hypothesis set_set : forall r, set_ (set_ r) = set_ r.

Lemma update_rows_idem (t : list A) :
  update_rows where_ set_ (update_rows where_ set_ t) = update_rows where_ set_ t.
Proof.
  unfold update_rows.
  induction t as [|r t IH]; simpl; [reflexivity|].
  rewrite IH. f_equal.
  destruct (where_ r) eqn:E.
  - now rewrite where_set, E, set_set.
  - now rewrite E.
Qed.
End Rows.

Lemma map_id_update_rows where_ set_ (t : list timesheets_row) :
  (forall r, id (set_ r) = id r) ->
  map id (update_rows where_ set_ t) = map id t.
Proof.
  intros H. unfold update_rows. rewrite map_map. apply map_ext.
  intros r. destruct (where_ r); auto.
Qed.

Lemma in_update_rows {A} (where_ : A -> bool) set_ (t : list A) x :
  In x (update_rows where_ set_ t) <->
  exists r, In r t /\ x = (if where_ r then set_ r else r).
Proof.
  unfold update_rows. rewrite in_map_iff. split; intros [r [H1 H2]]; exists r; auto.
Qed.

Lemma sorted_filter (f : timesheets_row -> bool) t :
  ids_sorted t -> ids_sorted (filter f t).
Proof.
  unfold ids_sorted.
  induction t as [|r t IH]; simpl; intros H; [constructor|].
  apply StronglySorted_inv in H. destruct H as [Ht Hr].
  destruct (f r); simpl; auto.
  constructor; auto.
  rewrite Forall_forall in *. intros x Hx. apply Hr.
  rewrite in_map_iff in *. destruct Hx as [y [Hy Hin]].
  exists y. split; auto. apply filter_In in Hin. tauto.
Qed.

Lemma next_rowid_above (ids : list Z) : Forall (fun i => i < next_rowid ids) ids.
Proof.
  destruct ids as [|i rest]; [constructor|].
  unfold next_rowid.
  assert (H : forall l a, a <= fold_right Z.max a l /\
                          Forall (fun x => x <= fold_right Z.max a l) l).
  { induction l as [|x l IH]; intros a; simpl.
    - split; [lia | constructor].
    - destruct (IH a) as [H1 H2]. split; [lia|].
      constructor; [lia|].
      eapply Forall_impl; [|exact H2]. simpl. intros; lia. }
  destruct (H rest i) as [H1 H2].
  constructor; [lia|].
  eapply Forall_impl; [|exact H2]. simpl. intros; lia.
Qed.

Lemma next_rowid_fresh (ids : list Z) : ~ In (next_rowid ids) ids.
Proof.
  intros H. pose proof (next_rowid_above ids) as Ha.
  rewrite Forall_forall in Ha. specialize (Ha _ H). lia.
Qed.

Lemma sorted_app_one (t : list timesheets_row) (r : timesheets_row) :
  ids_sorted t -> id r = next_rowid (map id t) -> ids_sorted (t ++ [r]).
Proof.
  unfold ids_sorted. intros Hs Hr.
  pose proof (next_rowid_above (map id t)) as Ha. rewrite <- Hr in Ha.
  clear Hr. induction t as [|x t IH]; simpl in *.
  - repeat constructor.
  - apply StronglySorted_inv in Hs. destruct Hs as [Hs Hx].
    inversion Ha; subst. constructor; auto.
    rewrite map_app. apply Forall_app. split; auto.
    repeat constructor. assumption.
Qed.

Lemma sorted_ids_unique (t : list timesheets_row) r1 r2 :
  ids_sorted t -> In r1 t -> In r2 t -> id r1 = id r2 -> r1 = r2.
Proof.
  unfold ids_sorted.
  induction t as [|x t IH]; simpl; intros Hs H1 H2 E; [contradiction|].
  apply StronglySorted_inv in Hs. destruct Hs as [Hs Hx].
  rewrite Forall_forall in Hx.
  destruct H1 as [->|H1], H2 as [->|H2]; auto.
  - specialize (Hx (id r2) (in_map id _ _ H2)). lia.
  - specialize (Hx (id r1) (in_map id _ _ H1)). lia.
Qed.

Lemma hours_ok_check (h : Q) : hours_input_ok h -> check_hours h = true.
Proof. intros [H _]. now apply Qle_bool_iff. Qed.

(** ** What the statements evaluate to *)

Lemma set_timesheets_same (d : db) t : timesheets d = Some t -> set_timesheets d t = d.
Proof. destruct d; simpl; intros ->; reflexivity. Qed.

Lemma insert_timesheet_ok d t uid pcid dt h st :
  timesheets d = Some t -> check_hours h = true ->
  insert_timesheet uid pcid dt h st d =
  Ok 1%nat (set_timesheets d (t ++ [mk_timesheet (next_rowid (map id t)) uid pcid dt h st None])).
Proof.
  intros Ht Hh. unfold insert_timesheet, with_timesheets. rewrite Ht, Hh. reflexivity.
Qed.


Lemma update_resubmit_ok d t h k :
  timesheets d = Some t -> check_hours h = true ->
  update_resubmit h k d =
  Ok (rowcount (has_id k) t) (set_timesheets d (update_rows (has_id k) (set_resubmit h) t)).
Proof.
  intros Ht Hh. unfold update_resubmit, with_timesheets. rewrite Ht, Hh.
  rewrite andb_false_r. reflexivity.
Qed.

Lemma update_review_ok d t st cm k :
  timesheets d = Some t ->
  update_review st cm k d =
  Ok (rowcount (has_id k) t) (set_timesheets d (update_rows (has_id k) (set_review st cm) t)).
Proof.
  intros Ht. unfold update_review, with_timesheets. rewrite Ht. reflexivity.
Qed.

Lemma update_timesheet_of_owner_ok d t pcid dt h k uid :
  timesheets d = Some t -> rowcount (owned k uid) t = 0%nat \/ check_hours h = true ->
  update_timesheet_of_owner pcid dt h k uid d =
  Ok (rowcount (owned k uid) t)
     (set_timesheets d
        (update_rows (owned k uid)
           (fun r => mk_timesheet (id r) (user_id r) pcid dt h (status r) (comments r)) t)).
Proof.
  intros Ht Hh. unfold update_timesheet_of_owner, with_timesheets. rewrite Ht.
  fold (owned k uid).
  replace ((0 <? rowcount (owned k uid) t)%nat && negb (check_hours h)) with false;
    [reflexivity|].
  destruct Hh as [-> | ->]; [reflexivity | now rewrite andb_false_r].
Qed.

Lemma delete_timesheet_of_owner_ok d t k uid :
  timesheets d = Some t ->
  delete_timesheet_of_owner k uid d =
  Ok (rowcount (owned k uid) t) (set_timesheets d (delete_rows (owned k uid) t)).
Proof.
  intros Ht. unfold delete_timesheet_of_owner, with_timesheets. rewrite Ht. reflexivity.
Qed.

(** ** The two loops *)

(** With one click per run a loop issues its UPDATE for the clicked id
    only, and issuing it twice leaves the store as issuing it once does. *)
Lemma update_resubmit_twice h k d :
  store (update_resubmit h k (store (update_resubmit h k d))) =
  store (update_resubmit h k d).
Proof.
  unfold update_resubmit, with_timesheets, bind, commit_timesheets, ret, raise.
  destruct (timesheets d) as [t|] eqn:Ht; simpl; [|now rewrite Ht].
  fold (has_id k). fold (set_resubmit h).
  destruct ((0 <? rowcount (has_id k) t)%nat && negb (check_hours h)) eqn:E; simpl.
  - now rewrite Ht, E.
  - rewrite rowcount_update_rows by reflexivity. rewrite E. simpl.
    rewrite update_rows_idem by reflexivity. reflexivity.
Qed.

Lemma update_review_twice st cm k d :
  store (update_review st cm k (store (update_review st cm k d))) =
  store (update_review st cm k d).
Proof.
  unfold update_review, with_timesheets, bind, commit_timesheets, ret, raise.
  destruct (timesheets d) as [t|] eqn:Ht; simpl; [|now rewrite Ht].
  fold (has_id k). fold (set_review st cm).
  rewrite update_rows_idem by reflexivity. reflexivity.
Qed.

Lemma bind_ok {A B} (m : M A) (k : A -> M B) d a d' :
  m d = Ok a d' -> bind m k d = k a d'.
Proof. unfold bind. now intros ->. Qed.

Lemma bind_raise {A B} (m : M A) (k : A -> M B) d e d' :
  m d = Raise e d' -> bind m k d = Raise e d'.
Proof. unfold bind. now intros ->. Qed.

Lemma bind_ret {A B} (a : A) (k : A -> M B) d : bind (ret a) k d = k a d.
Proof. reflexivity. Qed.

(** A statement run for its effect only, as [run_query(...)] in the source. *)
Lemma store_discard {A} (m : M A) d : store ((m ;;; ret tt) d) = store (m d).
Proof. unfold bind, ret. now destruct (m d). Qed.

Lemma respond_loop_store listed mh clicked d :
  store (respond_loop listed mh clicked d) =
  match clicked with
  | Some k =>
      if existsb (fun x => listed_id x =? k) listed
      then store (update_resubmit (mh k) k d)
      else d
  | None => d
  end.
Proof.
  destruct clicked as [k|].
  - revert d. induction listed as [|[[[tid dt] st] cm] rest IH]; intros d; [reflexivity|].
    cbn [respond_loop existsb listed_id fst resubmit_button]. unfold run_query.
    rewrite (Z.eqb_sym tid k).
    destruct (k =? tid) eqn:E; cbn [orb].
    + apply Z.eqb_eq in E. subst tid.
      destruct (update_resubmit (mh k) k d) as [n d'|e d'] eqn:U.
      * rewrite (bind_ok _ _ d tt d') by (now rewrite (bind_ok _ _ _ _ _ U)).
        rewrite IH.
        assert (Hd : d' = store (update_resubmit (mh k) k d)) by now rewrite U.
        destruct (existsb _ rest); [|reflexivity].
        rewrite Hd at 1. rewrite update_resubmit_twice. now rewrite U.
      * rewrite (bind_raise _ _ d e d') by (now rewrite (bind_raise _ _ _ _ _ U)).
        reflexivity.
    + rewrite bind_ret. apply IH.
  - revert d. induction listed as [|[[[tid dt] st] cm] rest IH]; intros d; [reflexivity|].
    cbn [respond_loop resubmit_button]. unfold run_query. rewrite bind_ret. apply IH.
Qed.

Lemma review_loop_store listed cf clicked d :
  store (review_loop listed cf clicked d) =
  match clicked with
  | Some (approve_ k) =>
      if existsb (has_id k) listed then store (update_approve (cf k) k d) else d
  | Some (reject_ k) =>
      if existsb (has_id k) listed then store (update_reject (cf k) k d) else d
  | None => d
  end.
Proof.
  destruct clicked as [[k|k]|].
  - revert d. induction listed as [|x rest IH]; intros d; [reflexivity|].
    cbn [review_loop existsb approve_button reject_button]. unfold run_query, has_id at 1.
    rewrite (Z.eqb_sym (id x) k).
    destruct (k =? id x) eqn:E; cbn [orb].
    + apply Z.eqb_eq in E. rewrite <- E.
      destruct (update_approve (cf k) k d) as [n d'|e d'] eqn:U.
      * rewrite (bind_ok _ _ d tt d') by (now rewrite (bind_ok _ _ _ _ _ U)).
        rewrite bind_ret, IH.
        assert (Hd : d' = store (update_approve (cf k) k d)) by now rewrite U.
        destruct (existsb _ rest); [|reflexivity].
        rewrite Hd at 1. unfold update_approve in *. rewrite update_review_twice.
        now rewrite U.
      * rewrite (bind_raise _ _ d e d') by (now rewrite (bind_raise _ _ _ _ _ U)).
        reflexivity.
    + rewrite !bind_ret. apply IH.
  - revert d. induction listed as [|x rest IH]; intros d; [reflexivity|].
    cbn [review_loop existsb approve_button reject_button]. unfold run_query, has_id at 1.
    rewrite (Z.eqb_sym (id x) k).
    destruct (k =? id x) eqn:E; cbn [orb].
    + apply Z.eqb_eq in E. rewrite <- E. rewrite bind_ret.
      destruct (update_reject (cf k) k d) as [n d'|e d'] eqn:U.
      * rewrite (bind_ok _ _ d tt d') by (now rewrite (bind_ok _ _ _ _ _ U)).
        rewrite IH.
        assert (Hd : d' = store (update_reject (cf k) k d)) by now rewrite U.
        destruct (existsb _ rest); [|reflexivity].
        rewrite Hd at 1. unfold update_reject in *. rewrite update_review_twice.
        now rewrite U.
      * rewrite (bind_raise _ _ d e d') by (now rewrite (bind_raise _ _ _ _ _ U)).
        reflexivity.
    + rewrite !bind_ret. apply IH.
  - revert d. induction listed as [|x rest IH]; intros d; [reflexivity|].
    cbn [review_loop approve_button reject_button]. unfold run_query. rewrite !bind_ret. apply IH.
Qed.

(** ** What one run does to [timesheets] *)

Lemma status_eqb_eq a b : status_eqb a b = true <-> a = b.
Proof. destruct a, b; simpl; split; congruence. Qed.

Lemma rows_set_timesheets d t : rows (set_timesheets d t) = t.
Proof. reflexivity. Qed.

Lemma rows_some d t : timesheets d = Some t -> rows d = t.
Proof. unfold rows. now intros ->. Qed.

Lemma user_dashboard_step uid a d t :
  timesheets d = Some t -> user_action_ok a ->
  table_step t (user_operation a) (rows (store (user_dashboard uid a d))).
Proof.
  intros Ht Ha.
  assert (Hsame : forall o, table_step t o (rows d)).
  { intros o. rewrite (rows_some _ _ Ht). constructor. }
  unfold user_dashboard, get_project_codes, fetch_query, run_query, select_id_code,
    with_project_codes.
  unfold bind at 1.
  destruct (project_codes d) as [pcs|] eqn:Hp; [|apply Hsame].
  unfold ret at 1.
  destruct a as [choice dt h submitted | tid choice dt h submitted | tid clicked |
                 | mh clicked]; cbn [user_operation user_action_ok] in *.
  - destruct submitted; [|apply Hsame].
    destruct (selectbox _ choice) as [cd|]; [|apply Hsame].
    destruct (dict_get cd _) as [pcid|]; [|apply Hsame].
    rewrite store_discard.
    rewrite (insert_timesheet_ok _ _ _ _ _ _ _ Ht (hours_ok_check _ Ha)).
    cbn [store]. rewrite rows_set_timesheets. now constructor.
  - destruct submitted; [|apply Hsame].
    unfold select_project_code_id, with_project_codes, bind. rewrite Hp.
    destruct (selectbox _ choice); apply Hsame.
  - destruct clicked; [|apply Hsame].
    rewrite store_discard, (delete_timesheet_of_owner_ok _ _ _ _ Ht).
    cbn [store]. rewrite rows_set_timesheets. constructor.
  - rewrite store_discard. unfold select_timesheets_of_user, with_timesheets.
    rewrite Ht. apply Hsame.
  - unfold select_rejected_of_user, with_timesheets.
    unfold bind at 1. rewrite Ht. unfold ret at 1.
    rewrite respond_loop_store.
    destruct clicked as [k|]; [|apply Hsame].
    destruct (existsb _ _) eqn:E; [|apply Hsame].
    apply existsb_exists in E. destruct E as [x [Hx Hk]].
    apply in_map_iff in Hx. destruct Hx as [r [<- Hr]].
    apply filter_In in Hr. destruct Hr as [Hr Hc].
    apply andb_true_iff in Hc. destruct Hc as [Hu Hs].
    apply Z.eqb_eq in Hu, Hk. apply status_eqb_eq in Hs.
    cbn [listed_id fst] in Hk. subst k.
    rewrite (update_resubmit_ok _ _ _ _ Ht (hours_ok_check _ (Ha _))).
    cbn [store]. rewrite rows_set_timesheets. now apply (step_resubmit t uid).
Qed.

Lemma timesheets_set_users d t : timesheets (set_users d t) = timesheets d.
Proof. reflexivity. Qed.

Lemma timesheets_set_project_codes d t :
  timesheets (set_project_codes d t) = timesheets d.
Proof. reflexivity. Qed.

(** The statements on [users] and [project_codes] leave [timesheets] alone. *)
Lemma users_statements_frame d :
  (forall name ro, timesheets (store (insert_user name ro d)) = timesheets d) /\
  (forall name ro uid, timesheets (store (update_user name ro uid d)) = timesheets d) /\
  (forall uid, timesheets (store (delete_user uid d)) = timesheets d).
Proof.
  repeat split; intros;
    unfold insert_user, update_user, delete_user, with_users, bind, commit_users,
      ret, raise;
    destruct (users d); try reflexivity;
    match goal with |- context [if ?b then _ else _] => destruct b end; reflexivity.
Qed.

Lemma project_codes_statements_frame d :
  (forall cd ds, timesheets (store (insert_project_code cd ds d)) = timesheets d) /\
  (forall cd ds pcid,
      timesheets (store (update_project_code cd ds pcid d)) = timesheets d) /\
  (forall pcid, timesheets (store (delete_project_code pcid d)) = timesheets d).
Proof.
  repeat split; intros;
    unfold insert_project_code, update_project_code, delete_project_code,
      with_project_codes, bind, commit_project_codes, ret, raise;
    destruct (project_codes d); try reflexivity;
    match goal with |- context [if ?b then _ else _] => destruct b end; reflexivity.
Qed.

Lemma manager_dashboard_step mid a d t :
  timesheets d = Some t ->
  table_step t (manager_operation a) (rows (store (manager_dashboard mid a d))).
Proof.
  intros Ht.
  assert (Hsame : forall o d', timesheets d' = timesheets d -> table_step t o (rows d')).
  { intros o d' E. rewrite (rows_some d' t) by congruence. constructor. }
  destruct (users_statements_frame d) as [Hu1 [Hu2 Hu3]].
  destruct (project_codes_statements_frame d) as [Hp1 [Hp2 Hp3]].
  destruct a as [cf clicked | action cd ds pcid submitted | action name ro uid submitted];
    cbn [manager_dashboard manager_operation]; unfold fetch_query, run_query.
  - unfold select_pending, with_timesheets.
    unfold bind at 1. rewrite Ht. unfold ret at 1.
    rewrite review_loop_store.
    destruct clicked as [[k|k]|]; [| |now apply Hsame].
    + destruct (existsb _ _) eqn:E; [|now apply Hsame].
      apply existsb_exists in E. destruct E as [r [Hr Hk]].
      apply filter_In in Hr. destruct Hr as [Hr Hs].
      apply status_eqb_eq in Hs. apply Z.eqb_eq in Hk. subst k.
      unfold update_approve. rewrite (update_review_ok _ _ _ _ _ Ht).
      cbn [store]. rewrite rows_set_timesheets. now constructor.
    + destruct (existsb _ _) eqn:E; [|now apply Hsame].
      apply existsb_exists in E. destruct E as [r [Hr Hk]].
      apply filter_In in Hr. destruct Hr as [Hr Hs].
      apply status_eqb_eq in Hs. apply Z.eqb_eq in Hk. subst k.
      unfold update_reject. rewrite (update_review_ok _ _ _ _ _ Ht).
      cbn [store]. rewrite rows_set_timesheets. now constructor.
  - unfold select_project_codes, with_project_codes. unfold bind at 1.
    destruct (project_codes d); [|now apply Hsame].
    unfold ret at 1.
    destruct submitted; [|now apply Hsame].
    destruct action; [| destruct (truthy pcid); [|now apply Hsame] ..];
      rewrite store_discard; apply Hsame; auto.
  - unfold select_users, with_users. unfold bind at 1.
    destruct (users d); [|now apply Hsame].
    unfold ret at 1.
    destruct submitted; [|now apply Hsame].
    destruct action; [| destruct (truthy uid); [|now apply Hsame] ..];
      rewrite store_discard; apply Hsame; auto.
Qed.

Lemma authenticate_store name ro d : store (authenticate name ro d) = d.
Proof.
  unfold authenticate, fetch_query, run_query, select_user_id, with_users, bind, ret.
  now destruct (users d).
Qed.

Lemma run_step i d :
  run_input_ok i -> table_step (rows d) (operation_of i) (rows (run i d)).
Proof.
  intros [Hu Hm]. unfold run, app, operation_of.
  unfold bind at 1. unfold init_db at 1.
  set (d1 := mk_db _ _ _).
  assert (Ht : timesheets d1 = Some (rows d)).
  { unfold d1, rows. simpl. now destruct (timesheets d). }
  assert (Hsame : forall o, table_step (rows d) o (rows d1)).
  { intros o. rewrite (rows_some _ _ Ht). constructor. }
  destruct (role i).
  - unfold bind at 1.
    pose proof (authenticate_store (username i) user d1) as Hs.
    destruct (authenticate (username i) user d1) as [found d2|e d2]; cbn [store] in *;
      subst d2; [|apply Hsame].
    destruct found as [uid|]; [|apply Hsame].
    destruct (truthy uid); [|apply Hsame].
    now apply user_dashboard_step.
  - unfold bind at 1.
    pose proof (authenticate_store (username i) manager d1) as Hs.
    destruct (authenticate (username i) manager d1) as [found d2|e d2]; cbn [store] in *;
      subst d2; [|apply Hsame].
    destruct found as [mid|]; [|apply Hsame].
    destruct (truthy mid); [|apply Hsame].
    now apply manager_dashboard_step.
Qed.

(** ** Invariants of the table along the runs *)

Lemma table_step_sorted t o t' : table_step t o t' -> ids_sorted t -> ids_sorted t'.
Proof.
  intros Hs Ht. destruct Hs; auto.
  - now apply sorted_app_one.
  - now apply sorted_filter.
  - unfold ids_sorted. now rewrite map_id_update_rows.
  - unfold ids_sorted. now rewrite map_id_update_rows.
  - unfold ids_sorted. now rewrite map_id_update_rows.
Qed.



Lemma reachable_sorted d0 d : ids_sorted (rows d0) -> reachable d0 d -> ids_sorted (rows d).
Proof.
  intros H0 Hr. induction Hr as [|d i Hr IH Hi]; auto.
  exact (table_step_sorted _ _ _ (run_step i d Hi) IH).
Qed.


(** ** The status workflow *)

Lemma find_sorted t r : ids_sorted t -> In r t -> find (has_id (id r)) t = Some r.
Proof.
  intros Hs Hr. destruct (find (has_id (id r)) t) as [x|] eqn:F.
  - apply find_some in F. destruct F as [Hx E]. apply Z.eqb_eq in E.
    f_equal. now apply (sorted_ids_unique t).
  - apply (find_none _ _ F) in Hr. unfold has_id in Hr.
    rewrite Z.eqb_refl in Hr. discriminate.
Qed.

Lemma find_fresh t k : ~ In k (map id t) -> find (has_id k) t = None.
Proof.
  intros Hk. destruct (find (has_id k) t) as [x|] eqn:F; [|reflexivity].
  apply find_some in F. destruct F as [Hx E]. apply Z.eqb_eq in E.
  exfalso. apply Hk. rewrite <- E. now apply in_map.
Qed.

Lemma status_of_sorted t r : ids_sorted t -> In r t -> status_of t (id r) = Some (status r).
Proof. intros Hs Hr. unfold status_of. now rewrite find_sorted. Qed.

Lemma updated_row t (f : timesheets_row -> timesheets_row) r x :
  ids_sorted t -> In r t ->
  In x (update_rows (has_id (id r)) f t) ->
  x = f r \/ (In x t /\ id x <> id r).
Proof.
  intros Hs Hr Hx. apply in_update_rows in Hx. destruct Hx as [y [Hy ->]].
  unfold has_id. destruct (id y =? id r) eqn:E.
  - apply Z.eqb_eq in E. left. f_equal. now apply (sorted_ids_unique t).
  - apply Z.eqb_neq in E. now right.
Qed.

Lemma table_step_status t o t' r' :
  ids_sorted t -> table_step t o t' -> In r' t' ->
  status_of t (id r') = Some (status r') \/
  exists op, o = Some op /\ transition (status_of t (id r')) op (status r').
Proof.
  intros Hs Hstep Hr'. destruct Hstep.
  - left. now apply status_of_sorted.
  - apply in_app_or in Hr'. destruct Hr' as [Hr'|[<-|[]]].
    + left. now apply status_of_sorted.
    + right. exists create. split; [reflexivity|]. cbn [id status].
      unfold status_of. rewrite find_fresh by apply next_rowid_fresh. constructor.
  - left. apply filter_In in Hr'. now apply status_of_sorted.
  - destruct (updated_row _ _ _ _ Hs Hin Hr') as [->|[Hx _]].
    + right. exists resubmit. split; [reflexivity|]. cbn [set_resubmit id status].
      rewrite (status_of_sorted _ _ Hs Hin), Hst. constructor.
    + left. now apply status_of_sorted.
  - destruct (updated_row _ _ _ _ Hs Hin Hr') as [->|[Hx _]].
    + right. exists approve. split; [reflexivity|]. cbn [set_review id status].
      rewrite (status_of_sorted _ _ Hs Hin), Hst. constructor.
    + left. now apply status_of_sorted.
  - destruct (updated_row _ _ _ _ Hs Hin Hr') as [->|[Hx _]].
    + right. exists reject. split; [reflexivity|]. cbn [set_review id status].
      rewrite (status_of_sorted _ _ Hs Hin), Hst. constructor.
    + left. now apply status_of_sorted.
Qed.

(** ** The scenario *)

Lemma hours_input_ok_dec (h : Q) :
  Qle_bool 0 h && Qle_bool h 24 = true -> hours_input_ok h.
Proof.
  intros H. apply andb_true_iff in H. destruct H as [H1 H2].
  split; now apply Qle_bool_iff.
Qed.

Lemma scenario_inputs_ok :
  run_input_ok alice_creates /\ run_input_ok bob_rejects /\
  run_input_ok bob_approves /\ run_input_ok alice_resubmits.
Proof.
  unfold run_input_ok, id_input_ok; cbn.
  repeat split; intros; try (apply hours_input_ok_dec; reflexivity); lia.
Qed.

Lemma scenario_reachable :
  reachable scenario_seed scenario_created /\
  reachable scenario_seed scenario_rejected /\
  reachable scenario_seed scenario_resubmitted /\
  reachable scenario_seed scenario_approved.
Proof.
  destruct scenario_inputs_ok as [H1 [H2 [H3 H4]]].
  assert (R1 : reachable scenario_seed scenario_created)
    by (apply reach_run; [apply reach_start | exact H1]).
  assert (R2 : reachable scenario_seed scenario_rejected)
    by (apply reach_run; assumption).
  repeat split; auto; apply reach_run; assumption.
Qed.

Example team_store_rows :
  rows team_store =
  [mk_timesheet 1 1 1 "2024-01-05" 8 rejected (Some "missing approval"%string);
   mk_timesheet 2 3 2 "2024-01-05" 7 pending None;
   mk_timesheet 3 1 2 "2024-01-06" 6 pending None].
Proof. reflexivity. Qed.

Lemma team_reachable : reachable team_seed team_store.
Proof.
  assert (Hb : forall pc dt h name,
             Qle_bool 0 h && Qle_bool h 24 = true ->
             run_input_ok (mk_input User name (CreateTimesheet pc dt h true)
                                    idle_manager_page)).
  { intros pc dt h name Hh. split; [now apply hours_input_ok_dec | exact I]. }
  unfold team_store.
  apply reach_run; [|apply scenario_inputs_ok].
  apply reach_run; [|now apply Hb].
  apply reach_run; [|now apply Hb].
  apply reach_run; [apply reach_start | now apply Hb].
Qed.

(** The scenario, run: the created entry is pending without a comment; the
    rejection sets status and comment; the resubmission sets the hours and
    makes the entry pending again, the comment still there. *)
Example scenario_created_rows :
  rows scenario_created = [mk_timesheet 1 1 1 "2024-01-05" 8 pending None].
Proof. reflexivity. Qed.

Example scenario_rejected_rows :
  rows scenario_rejected =
  [mk_timesheet 1 1 1 "2024-01-05" 8 rejected (Some "missing approval"%string)].
Proof. reflexivity. Qed.

Example scenario_resubmitted_rows :
  rows scenario_resubmitted =
  [mk_timesheet 1 1 1 "2024-01-05" 6 pending (Some "missing approval"%string)].
Proof. reflexivity. Qed.

Example scenario_approved_rows :
  rows scenario_approved = [mk_timesheet 1 1 1 "2024-01-05" 8 approved (Some "fine"%string)].
Proof. reflexivity. Qed.

(** A click on "Resubmit 1" leaves the approved entry alone: the button is
    not there, so no statement runs. *)
Example approved_not_resubmitted : run alice_resubmits scenario_approved = scenario_approved.
Proof. reflexivity. Qed.

(** The Modify form raises on submission, also for the owner of the entry. *)
Example modify_raises_for_owner :
  app (mk_input User "alice" (ModifyTimesheet 1 0 "2024-01-06" 4 true) idle_manager_page)
      scenario_created =
  Raise ProgrammingError scenario_created.
Proof. reflexivity. Qed.

(** * The claims *)




(** C2: in every run from a reachable store, an entry of the resulting table
    either keeps the status it had, or it has moved along the row of the
    transition table of the operation the run performed: create makes a
    pending entry, approve takes pending to approved, reject takes pending
    to rejected, resubmit takes rejected to pending.  No run takes an entry
    out of approved. *)
Theorem status_follows_workflow (d0 d : db) (i : run_input) (r' : timesheets_row)
  (H0 : ids_sorted (rows d0)) (Hr : reachable d0 d) (Hi : run_input_ok i)
  (Hin : In r' (rows (run i d))) :
  (status_of (rows d) (id r') = Some (status r') \/
   exists op, operation_of i = Some op /\
              transition (status_of (rows d) (id r')) op (status r')) /\
  (status_of (rows d) (id r') = Some approved -> status r' = approved).
Proof.
  pose proof (reachable_sorted d0 d H0 Hr) as Hs.
  pose proof (table_step_status _ _ _ r' Hs (run_step i d Hi) Hin) as H.
  split; [exact H|].
  intros Ha. rewrite Ha in H. destruct H as [H|[op [_ H]]].
  - congruence.
  - inversion H.
Qed.

Lemma status_follows_workflow_witness :
  ((status_of (rows scenario_rejected) 1 = Some pending \/
    exists op, operation_of alice_resubmits = Some op /\
               transition (status_of (rows scenario_rejected) 1) op pending) /\
   (status_of (rows scenario_rejected) 1 = Some approved -> pending = approved)) /\
  (forall r', In r' (rows (run alice_resubmits scenario_approved)) -> id r' = 1 ->
              status r' = approved).
Proof.
  split.
  - apply (status_follows_workflow scenario_seed scenario_rejected alice_resubmits
             (mk_timesheet 1 1 1 "2024-01-05" 6 pending (Some "missing approval"%string))).
    + constructor.
    + apply scenario_reachable.
    + apply scenario_inputs_ok.
    + vm_compute. left. reflexivity.
  - intros r' Hin Hid.
    apply (status_follows_workflow scenario_seed scenario_approved alice_resubmits r').
    + constructor.
    + apply scenario_reachable.
    + apply scenario_inputs_ok.
    + exact Hin.
    + rewrite Hid. reflexivity.
Defined.

(** ** Resubmission *)

Lemma listed_rejected (f : timesheets_row -> bool) k (t : list timesheets_row) :
  existsb (fun x => listed_id x =? k)
          (map (fun r => (id r, date r, status r, comments r)) (select_rows f t)) =
  existsb (fun r => f r && has_id k r) t.
Proof.
  unfold select_rows, has_id.
  induction t as [|r t IH]; [reflexivity|].
  cbn [filter existsb]. destruct (f r); cbn [map existsb listed_id fst andb]; now rewrite IH.
Qed.

Lemma respond_store d t pcs uid mh k :
  timesheets d = Some t -> project_codes d = Some pcs ->
  store (user_dashboard uid (RespondToComments mh (Some k)) d) =
  if existsb (fun r => listed_for uid r && has_id k r) t
  then store (update_resubmit (mh k) k d)
  else d.
Proof.
  intros Ht Hp.
  unfold user_dashboard, get_project_codes, fetch_query, run_query, select_id_code,
    with_project_codes.
  unfold bind at 1. rewrite Hp. unfold ret at 1.
  unfold select_rejected_of_user, with_timesheets.
  unfold bind at 1. rewrite Ht. unfold ret at 1.
  rewrite respond_loop_store, listed_rejected. reflexivity.
Qed.

(** C3: resubmitting a rejected entry from its owner's dashboard leaves the
    entry with the new hours and status pending, and with the date, project
    code, comment (and owner and id) it had; it is the only entry with that
    id, and the other rows are as they were. *)
Theorem resubmit_rejected_entry (d : db) (t : list timesheets_row) (uid : Z)
  (mh : Z -> Q) (r : timesheets_row)
  (Ht : timesheets d = Some t) (Hp : project_codes d <> None) (Hs : ids_sorted t)
  (Hr : In r t) (Hu : user_id r = uid) (Hst : status r = rejected)
  (Hh : hours_input_ok (mh (id r))) :
  let d' := store (user_dashboard uid (RespondToComments mh (Some (id r))) d) in
  exists r',
    In r' (rows d') /\
    hours r' = mh (id r) /\ status r' = pending /\
    date r' = date r /\ project_code_id r' = project_code_id r /\
    comments r' = comments r /\ user_id r' = user_id r /\ id r' = id r /\
    (forall x, In x (rows d') -> id x = id r -> x = r') /\
    (forall x, In x (rows d') -> id x <> id r -> In x t) /\
    map id (rows d') = map id t.
Proof.
  intros d'. exists (set_resubmit (mh (id r)) r).
  destruct (project_codes d) as [pcs|] eqn:Hpc; [clear Hp|congruence].
  assert (Hd : rows d' = update_rows (has_id (id r)) (set_resubmit (mh (id r))) t).
  { unfold d'. rewrite (respond_store d t pcs) by assumption.
    replace (existsb _ t) with true.
    - rewrite (update_resubmit_ok d t) by (auto using hours_ok_check). reflexivity.
    - symmetry. apply existsb_exists. exists r. split; [assumption|].
      unfold listed_for, has_id. rewrite Hu, Hst, !Z.eqb_refl. reflexivity. }
  rewrite Hd. repeat split; try reflexivity.
  - apply in_update_rows. exists r. split; [assumption|].
    unfold has_id. now rewrite Z.eqb_refl.
  - intros x Hx E. destruct (updated_row _ _ _ _ Hs Hr Hx) as [->|[_ Hne]]; congruence.
  - intros x Hx E. destruct (updated_row _ _ _ _ Hs Hr Hx) as [->|[Hin _]]; auto.
    now elim E.
  - now apply map_id_update_rows.
Qed.

Lemma resubmit_rejected_entry_witness :
  exists r',
    In r' (rows scenario_resubmitted) /\
    hours r' = 6%Q /\ status r' = pending /\
    date r' = "2024-01-05"%string /\ project_code_id r' = 1 /\
    comments r' = Some "missing approval"%string /\ user_id r' = 1 /\ id r' = 1.
Proof.
  destruct (resubmit_rejected_entry
              (store (init_db scenario_rejected))
              [mk_timesheet 1 1 1 "2024-01-05" 8 rejected (Some "missing approval"%string)]
              1 (fun _ => 6%Q)
              (mk_timesheet 1 1 1 "2024-01-05" 8 rejected (Some "missing approval"%string)))
    as [r' H].
  - reflexivity.
  - discriminate.
  - repeat constructor.
  - left. reflexivity.
  - reflexivity.
  - reflexivity.
  - apply hours_input_ok_dec. reflexivity.
  - exists r'. cbn [id hours date project_code_id comments user_id] in H.
    destruct H as [H1 [H2 [H3 [H4 [H5 [H6 [H7 [H8 _]]]]]]]].
    repeat split; assumption.
Defined.



(** ** Owner-scoped update and delete *)

Lemma not_owned_false (t : list timesheets_row) tid uid :
  (forall r, In r t -> id r = tid -> user_id r <> uid) ->
  forall r, In r t -> owned tid uid r = false.
Proof.
  intros H r Hr. unfold owned. apply not_true_is_false. intros E.
  apply andb_true_iff in E. destruct E as [E1 E2]. apply Z.eqb_eq in E1, E2.
  exact (H r Hr E1 E2).
Qed.

(** The Modify form never reaches its UPDATE: the select box over the rows of
    [get_project_codes] yields a tuple, which the lookup of the project code
    cannot bind, or None, for which the lookup finds no row. *)
Lemma modify_timesheet_raises d uid tid choice dt h :
  exists e,
    user_dashboard uid (ModifyTimesheet tid choice dt h true) d = Raise e d /\
    (e = OperationalError \/ e = ProgrammingError \/ e = IndexError).
Proof.
  unfold user_dashboard, get_project_codes, fetch_query, run_query, select_id_code,
    with_project_codes.
  unfold bind at 1.
  destruct (project_codes d) as [pcs|] eqn:Hp; [|eauto].
  unfold ret at 1.
  unfold select_project_code_id, with_project_codes, bind. rewrite Hp.
  destruct (selectbox _ choice); cbn; eauto.
Qed.

(** C4: when no entry has both the given id and the given owner (the id is
    absent, or the entry is someone else's), the owner-scoped UPDATE and
    DELETE succeed with zero rows affected and the store is unchanged; so is
    it after the Delete and Modify actions of the dashboard. *)
Theorem owner_mismatch_changes_nothing (d : db) (t : list timesheets_row)
  (tid uid pcid : Z) (dt : string) (h : Q)
  (Ht : timesheets d = Some t)
  (Hno : forall r, In r t -> id r = tid -> user_id r <> uid) :
  update_timesheet_of_owner pcid dt h tid uid d = Ok 0%nat d /\
  delete_timesheet_of_owner tid uid d = Ok 0%nat d /\
  store (user_dashboard uid (DeleteTimesheet tid true) d) = d /\
  forall choice submitted,
    store (user_dashboard uid (ModifyTimesheet tid choice dt h submitted) d) = d.
Proof.
  pose proof (not_owned_false t tid uid Hno) as Hf.
  assert (Hdel : delete_timesheet_of_owner tid uid d = Ok 0%nat d).
  { rewrite (delete_timesheet_of_owner_ok d t) by assumption.
    rewrite rowcount_none, delete_rows_none by assumption.
    now rewrite set_timesheets_same. }
  repeat split.
  - rewrite (update_timesheet_of_owner_ok d t).
    + rewrite rowcount_none, update_rows_none by assumption.
      now rewrite set_timesheets_same.
    + assumption.
    + left. now apply rowcount_none.
  - exact Hdel.
  - unfold user_dashboard, get_project_codes, fetch_query, run_query, select_id_code,
    with_project_codes.
    unfold bind at 1. destruct (project_codes d); [|reflexivity].
    unfold ret at 1. rewrite store_discard. now rewrite Hdel.
  - intros choice [|].
    + destruct (modify_timesheet_raises d uid tid choice dt h) as [e [-> _]].
      reflexivity.
    + unfold user_dashboard, get_project_codes, fetch_query, run_query, select_id_code,
    with_project_codes.
      unfold bind at 1. now destruct (project_codes d).
Qed.

Lemma owner_mismatch_changes_nothing_witness :
  let d := store (init_db scenario_created) in
  update_timesheet_of_owner 1 "2024-02-01" 4 1 2 d = Ok 0%nat d /\
  delete_timesheet_of_owner 1 2 d = Ok 0%nat d /\
  update_timesheet_of_owner 1 "2024-02-01" 4 7 1 d = Ok 0%nat d /\
  delete_timesheet_of_owner 7 1 d = Ok 0%nat d.
Proof.
  intros d.
  destruct (owner_mismatch_changes_nothing d (rows d) 1 2 1 "2024-02-01" 4)
    as [H1 [H2 _]].
  - reflexivity.
  - intros r [<-|[]] _. cbn. lia.
  - destruct (owner_mismatch_changes_nothing d (rows d) 7 1 1 "2024-02-01" 4)
      as [H3 [H4 _]].
    + reflexivity.
    + intros r [<-|[]]. cbn. lia.
    + repeat split; assumption.
Defined.

(** ** Identity lookup *)

Lemma role_eqb_eq a b : role_eqb a b = true <-> a = b.
Proof. destruct a, b; simpl; split; congruence. Qed.

Lemma nodup_map_inj {A B} (f : A -> B) (l : list A) x y :
  NoDup (map f l) -> In x l -> In y l -> f x = f y -> x = y.
Proof.
  induction l as [|a l IH]; simpl; intros Hn Hx Hy E; [contradiction|].
  inversion Hn as [|? ? Ha Hl]; subst.
  destruct Hx as [->|Hx], Hy as [->|Hy]; auto.
  - exfalso. apply Ha. rewrite E. now apply in_map.
  - exfalso. apply Ha. rewrite <- E. now apply in_map.
Qed.

Lemma authenticate_eval d t name ro :
  users d = Some t ->
  authenticate name ro d =
  Ok (match map u_id
              (select_rows (fun r => String.eqb (u_username r) name && role_eqb (u_role r) ro) t)
      with
      | [] => None
      | i :: _ => Some i
      end) d.
Proof.
  intros Ht.
  unfold authenticate, fetch_query, run_query, select_user_id, with_users, bind, ret.
  now rewrite Ht.
Qed.

(** C5: [authenticate] returns the id of a row of [users] that has both the
    name and the role when there is one, the first in the table, which is
    the only one as user names are unique; it returns None when there is
    none; it does not change the store, so a repeated call returns the same,
    as does a call on any store with the same [users] table. *)
Theorem authenticate_resolves (d : db) (t : list users_row) (name : string)
  (ro : role_value) (Ht : users d = Some t) :
  (forall r, In r t -> u_username r = name -> u_role r = ro ->
     exists r',
       In r' t /\ u_username r' = name /\ u_role r' = ro /\
       authenticate name ro d = Ok (Some (u_id r')) d /\
       (NoDup (map u_username t) -> r' = r)) /\
  ((forall r, In r t -> ~ (u_username r = name /\ u_role r = ro)) ->
   authenticate name ro d = Ok None d) /\
  (authenticate name ro ;;; authenticate name ro) d = authenticate name ro d /\
  (forall d', users d' = users d ->
              value (authenticate name ro d') = value (authenticate name ro d)).
Proof.
  rewrite (authenticate_eval d t) by assumption.
  set (f := fun r => String.eqb (u_username r) name && role_eqb (u_role r) ro).
  assert (Hf : forall r, f r = true <-> u_username r = name /\ u_role r = ro).
  { intros r. unfold f. rewrite andb_true_iff, String.eqb_eq, role_eqb_eq. tauto. }
  split; [|split; [|split]].
  - intros r Hr Hn Hro.
    assert (Hin : In r (select_rows f t)) by (apply filter_In; split; auto; now apply Hf).
    destruct (select_rows f t) as [|x l] eqn:E; [destruct Hin|].
    assert (Hx : In x (select_rows f t)) by (rewrite E; now left).
    apply filter_In in Hx. destruct Hx as [Hx Hfx]. apply Hf in Hfx.
    destruct Hfx as [Hxn Hxr].
    exists x. repeat split; auto.
    intros Hu. apply (nodup_map_inj u_username t); auto. congruence.
  - intros Hnone.
    destruct (select_rows f t) as [|x l] eqn:E; [reflexivity|].
    assert (Hx : In x (select_rows f t)) by (rewrite E; now left).
    apply filter_In in Hx. destruct Hx as [Hx Hfx]. apply Hf in Hfx.
    now elim (Hnone x Hx).
  - rewrite (bind_ok _ _ d _ d (authenticate_eval d t name ro Ht)).
    now apply authenticate_eval.
  - intros d' Hd'. rewrite (authenticate_eval d' t) by congruence. reflexivity.
Qed.

Lemma authenticate_resolves_witness :
  authenticate "alice" user scenario_seed = Ok (Some 1) scenario_seed /\
  authenticate "alice" manager scenario_seed = Ok None scenario_seed.
Proof.
  assert (Hn : NoDup (map u_username [mk_user 1 "alice" user; mk_user 2 "bob" manager])).
  { repeat constructor; simpl; intuition discriminate. }
  split.
  - destruct (authenticate_resolves scenario_seed _ "alice" user eq_refl) as [H _].
    destruct (H (mk_user 1 "alice" user) (or_introl eq_refl) eq_refl eq_refl)
      as [r' [_ [_ [_ [Ha Hu]]]]].
    rewrite (Hu Hn) in Ha. exact Ha.
  - destruct (authenticate_resolves scenario_seed _ "alice" manager eq_refl)
      as [_ [H _]].
    apply H. intros r [<-|[<-|[]]] [H1 H2]; simpl in *; discriminate.
Defined.

(** ** Review by the manager *)

Lemma review_frame_refl k t : Forall2 (review_frame k) t t.
Proof. induction t; constructor; auto. unfold review_frame. tauto. Qed.

Lemma review_frame_update k st cm t :
  Forall2 (review_frame (Some k)) t (update_rows (has_id k) (set_review st cm) t).
Proof.
  induction t as [|x t IH]; simpl; constructor; auto.
  unfold review_frame, has_id. destruct (id x =? k) eqn:E; simpl.
  - apply Z.eqb_eq in E. repeat split; auto. intros H. elim H. now f_equal.
  - tauto.
Qed.

Lemma review_store d t mid cf clicked :
  timesheets d = Some t ->
  store (manager_dashboard mid (ReviewTimesheets cf clicked) d) =
  match clicked with
  | Some (approve_ k) =>
      if existsb (has_id k) (select_rows (fun r => status_eqb (status r) pending) t)
      then set_timesheets d (update_rows (has_id k) (set_review approved (cf k)) t)
      else d
  | Some (reject_ k) =>
      if existsb (has_id k) (select_rows (fun r => status_eqb (status r) pending) t)
      then set_timesheets d (update_rows (has_id k) (set_review rejected (cf k)) t)
      else d
  | None => d
  end.
Proof.
  intros Ht. cbn [manager_dashboard].
  unfold fetch_query, run_query, select_pending, with_timesheets.
  unfold bind at 1. rewrite Ht. unfold ret at 1.
  rewrite review_loop_store. unfold update_approve, update_reject.
  destruct clicked as [[k|k]|]; try reflexivity;
    now rewrite (update_review_ok d t).
Qed.

(** C6: approve and reject change only the status and the comment of the
    reviewed entry.  The UPDATE they run, and the review action of the
    dashboard, leave [users] and [project_codes] alone, keep every row's id,
    owner, project code, date and hours, and keep every other row whole. *)
Theorem review_changes_status_and_comment_only (d : db) (t : list timesheets_row)
  (Ht : timesheets d = Some t) :
  (forall st cm k,
     exists t',
       update_review st cm k d =
         Ok (rowcount (has_id k) t) (mk_db (users d) (project_codes d) (Some t')) /\
       Forall2 (review_frame (Some k)) t t') /\
  (forall mid cf clicked,
     exists t',
       store (manager_dashboard mid (ReviewTimesheets cf clicked) d) =
         mk_db (users d) (project_codes d) (Some t') /\
       Forall2 (review_frame (reviewed clicked)) t t').
Proof.
  assert (Hd : d = mk_db (users d) (project_codes d) (Some t)).
  { destruct d; simpl in *; now subst. }
  split.
  - intros st cm k. exists (update_rows (has_id k) (set_review st cm) t).
    split; [now apply update_review_ok | apply review_frame_update].
  - intros mid cf clicked. rewrite (review_store d t) by assumption.
    destruct clicked as [[k|k]|]; cbn [reviewed].
    + destruct (existsb _ _).
      * eexists. split; [reflexivity | apply review_frame_update].
      * exists t. split; [exact Hd | apply review_frame_refl].
    + destruct (existsb _ _).
      * eexists. split; [reflexivity | apply review_frame_update].
      * exists t. split; [exact Hd | apply review_frame_refl].
    + exists t. split; [exact Hd | apply review_frame_refl].
Qed.

Lemma review_changes_status_and_comment_only_witness :
  exists t',
    store (app bob_rejects scenario_created) =
      mk_db (users scenario_created) (project_codes scenario_created) (Some t') /\
    Forall2 (review_frame (Some 1)) (rows scenario_created) t'.
Proof.
  destruct (review_changes_status_and_comment_only
              (store (init_db scenario_created)) (rows scenario_created) eq_refl)
    as [_ H].
  exact (H 2 (fun _ => "missing approval"%string) (Some (reject_ 1))).
Defined.

(** ** The project codes in code order *)

Lemma insert_by_code_perm r l : Permutation (insert_by_code r l) (r :: l).
Proof.
  induction l as [|x l IH]; cbn [insert_by_code]; [reflexivity|].
  destruct (String.ltb (p_code x) (p_code r)); [|reflexivity].
  rewrite IH. apply perm_swap.
Qed.

Lemma by_code_perm t : Permutation (by_code t) t.
Proof.
  induction t as [|r t IH]; cbn [by_code fold_right]; [reflexivity|].
  fold (by_code t). rewrite insert_by_code_perm. now constructor.
Qed.


Lemma by_code_nodup t : NoDup (map p_code t) -> NoDup (map p_code (by_code t)).
Proof.
  apply Permutation_NoDup. apply Permutation_map. symmetry. apply by_code_perm.
Qed.

Lemma by_code_nil t : by_code t = [] <-> t = [].
Proof.
  split; intros H.
  - apply Permutation_nil. rewrite <- H. apply by_code_perm.
  - now subst.
Qed.

(** ** Creating an entry *)

Lemma dict_set_fresh k v m : ~ In k (map fst m) -> dict_set k v m = m ++ [(k, v)].
Proof.
  induction m as [|[k' v'] m IH]; simpl; intros H; [reflexivity|].
  destruct (String.eqb k' k) eqn:E.
  - apply String.eqb_eq in E. elim H. now left.
  - rewrite IH; auto.
Qed.

Lemma project_code_map_from (pcs : list (Z * string)) (m : list (string * Z)) :
  NoDup (map fst m ++ map snd pcs) ->
  fold_left (fun m c => dict_set (snd c) (fst c) m) pcs m =
  m ++ map (fun c => (snd c, fst c)) pcs.
Proof.
  revert m. induction pcs as [|[i c] pcs IH]; intros m Hn; simpl.
  - now rewrite app_nil_r.
  - simpl in Hn. pose proof (NoDup_remove _ _ _ Hn) as [Hn' Hc].
    rewrite dict_set_fresh by (intros H; apply Hc, in_or_app; now left).
    rewrite IH.
    + now rewrite <- app_assoc.
    + rewrite map_app. simpl. now rewrite <- app_assoc.
Qed.

Lemma project_code_map_unique (pcs : list (Z * string)) :
  NoDup (map snd pcs) -> project_code_map pcs = map (fun c => (snd c, fst c)) pcs.
Proof. intros H. unfold project_code_map. now rewrite project_code_map_from. Qed.

Lemma dict_get_unique m k v : NoDup (map fst m) -> In (k, v) m -> dict_get k m = Some v.
Proof.
  induction m as [|[k' v'] m IH]; simpl; intros Hn Hin; [contradiction|].
  inversion Hn as [|? ? Hk Hm]; subst.
  destruct Hin as [E|Hin].
  - inversion E; subst. now rewrite String.eqb_refl.
  - destruct (String.eqb k' k) eqn:E; auto.
    apply String.eqb_eq in E. subst k'. elim Hk.
    change k with (fst (k, v)). now apply in_map.
Qed.

Lemma selectbox_nth {A} (options : list A) (choice : nat) (x : A) :
  nth_error options choice = Some x -> selectbox options choice = Some x.
Proof.
  intros H. destruct options as [|o l]; [now destruct choice|].
  unfold selectbox. f_equal. now apply nth_error_nth.
Qed.

(** C7: with hours within [0, 24] the INSERT of "Create Timesheet" succeeds
    and appends exactly one row, under a fresh id, with the given owner,
    project code, date and hours, status pending and no comment; the form,
    submitted with the project code chosen in its select box, which lists
    the codes in code order, inserts that row with the id of the chosen
    code. *)
Theorem create_inserts_one_pending_entry (d : db) (t : list timesheets_row)
  (uid : Z) (dt : string) (h : Q)
  (Ht : timesheets d = Some t) (Hh : hours_input_ok h) :
  (forall pcid,
     insert_timesheet uid pcid dt h pending d =
       Ok 1%nat
          (mk_db (users d) (project_codes d)
             (Some (t ++ [mk_timesheet (next_rowid (map id t)) uid pcid dt h pending None])))) /\
  ~ In (next_rowid (map id t)) (map id t) /\
  (forall pcs choice p,
     project_codes d = Some pcs -> NoDup (map p_code pcs) ->
     nth_error (by_code pcs) choice = Some p ->
     user_dashboard uid (CreateTimesheet choice dt h true) d =
       Ok tt
          (mk_db (users d) (project_codes d)
             (Some (t ++ [mk_timesheet (next_rowid (map id t)) uid (p_id p) dt h pending
                            None])))).
Proof.
  assert (Hins : forall pcid,
     insert_timesheet uid pcid dt h pending d =
       Ok 1%nat
          (mk_db (users d) (project_codes d)
             (Some (t ++ [mk_timesheet (next_rowid (map id t)) uid pcid dt h pending None])))).
  { intros pcid. now rewrite (insert_timesheet_ok d t) by auto using hours_ok_check. }
  split; [exact Hins|]. split; [apply next_rowid_fresh|].
  intros pcs choice p Hp Hn Hc.
  apply by_code_nodup in Hn.
  unfold user_dashboard, get_project_codes, fetch_query, run_query, select_id_code,
    with_project_codes.
  unfold bind at 1. rewrite Hp. unfold ret at 1.
  set (listed := map (fun r => (p_id r, p_code r)) (by_code pcs)).
  assert (Hcodes : map snd listed = map p_code (by_code pcs)).
  { unfold listed. rewrite map_map. reflexivity. }
  rewrite project_code_map_unique by now rewrite Hcodes.
  assert (Hkeys : map fst (map (fun c : Z * string => (snd c, fst c)) listed) =
                  map p_code (by_code pcs)).
  { unfold listed. rewrite !map_map. reflexivity. }
  rewrite Hkeys.
  rewrite (selectbox_nth _ _ (p_code p)) by now apply map_nth_error.
  rewrite (dict_get_unique _ _ (p_id p)).
  - rewrite (bind_ok _ _ d _ _ (Hins (p_id p))). now rewrite Hp.
  - now rewrite Hkeys.
  - unfold listed. rewrite map_map. apply in_map_iff. exists p.
    split; [reflexivity|]. now apply nth_error_In with choice.
Qed.

Lemma create_inserts_one_pending_entry_witness :
  app alice_creates scenario_seed =
    Ok tt (mk_db (users scenario_seed) (project_codes scenario_seed)
             (Some [mk_timesheet 1 1 1 "2024-01-05" 8 pending None])) /\
  app alice_books_eng team_seed =
    Ok tt (mk_db (users team_seed) (project_codes team_seed)
             (Some [mk_timesheet 1 1 1 "2024-01-05" 8 pending None])) /\
  user_dashboard 3 (CreateTimesheet 0 "2024-01-05" 7 true) (run alice_books_eng team_seed) =
    Ok tt (mk_db (users team_seed) (project_codes team_seed)
             (Some [mk_timesheet 1 1 1 "2024-01-05" 8 pending None;
                    mk_timesheet 2 3 2 "2024-01-05" 7 pending None])).
Proof.
  split; [|split].
  - destruct (create_inserts_one_pending_entry (store (init_db scenario_seed)) [] 1
                "2024-01-05" 8 eq_refl (hours_input_ok_dec 8 eq_refl)) as [_ [_ H]].
    apply (H [mk_project_code 1 "ENG" (Some "Engineering"%string)] 0%nat
             (mk_project_code 1 "ENG" (Some "Engineering"%string))).
    + reflexivity.
    + repeat constructor. simpl. tauto.
    + reflexivity.
  - destruct (create_inserts_one_pending_entry (store (init_db team_seed)) [] 1
                "2024-01-05" 8 eq_refl (hours_input_ok_dec 8 eq_refl)) as [_ [_ H]].
    apply (H (project_codes_rows team_seed) 1%nat
             (mk_project_code 1 "ENG" (Some "Engineering"%string))).
    + reflexivity.
    + repeat constructor; simpl; intuition discriminate.
    + reflexivity.
  - destruct (create_inserts_one_pending_entry (run alice_books_eng team_seed)
                [mk_timesheet 1 1 1 "2024-01-05" 8 pending None] 3
                "2024-01-05" 7 eq_refl (hours_input_ok_dec 7 eq_refl)) as [_ [_ H]].
    apply (H (project_codes_rows team_seed) 0%nat
             (mk_project_code 2 "ABC" (Some "Alphabet"%string))).
    + reflexivity.
    + repeat constructor; simpl; intuition discriminate.
    + reflexivity.
Defined.

(** ** Listings *)

(** C9: in every store reached by runs of the script, each of the three
    listings of [timesheets] returns the rows its filter selects, in
    increasing id; and that is the order of insertion, as a created entry
    takes an id above all the others and comes last in every listing that
    selects it. *)
Theorem listings_in_id_order (d0 d : db) (t : list timesheets_row)
  (H0 : ids_sorted (rows d0)) (Hr : reachable d0 d) (Ht : timesheets d = Some t) :
  (forall uid, exists l,
      select_timesheets_of_user uid d = Ok l d /\
      (forall r, In r l <-> In r t /\ user_id r = uid) /\
      StronglySorted Z.lt (map id l)) /\
  (forall uid, exists l,
      select_rejected_of_user uid d = Ok l d /\
      (forall x, In x l <->
                 exists r, In r t /\ user_id r = uid /\ status r = rejected /\
                           x = (id r, date r, status r, comments r)) /\
      StronglySorted Z.lt (map listed_id l)) /\
  (exists l,
      select_pending d = Ok l d /\
      (forall r, In r l <-> In r t /\ status r = pending) /\
      StronglySorted Z.lt (map id l)) /\
  (forall uid pcid dt h, hours_input_ok h ->
     exists new,
       insert_timesheet uid pcid dt h pending d = Ok 1%nat (set_timesheets d (t ++ [new])) /\
       Forall (fun r => id r < id new) t /\
       forall where_ : timesheets_row -> bool,
         select_rows where_ (t ++ [new]) =
         select_rows where_ t ++ (if where_ new then [new] else [])).
Proof.
  pose proof (reachable_sorted d0 d H0 Hr) as Hs. rewrite (rows_some d t Ht) in Hs.
  split; [|split; [|split]].
  - intros uid. eexists. split; [|split].
    + unfold select_timesheets_of_user, with_timesheets. rewrite Ht. reflexivity.
    + intros r. unfold select_rows. rewrite filter_In, Z.eqb_eq. reflexivity.
    + now apply sorted_filter.
  - intros uid. eexists. split; [|split].
    + unfold select_rejected_of_user, with_timesheets. rewrite Ht. reflexivity.
    + intros x. unfold select_rows. rewrite in_map_iff. split.
      * intros [r [<- Hin]]. apply filter_In in Hin. destruct Hin as [Hin Hc].
        apply andb_true_iff in Hc. destruct Hc as [Hu Hst].
        apply Z.eqb_eq in Hu. apply status_eqb_eq in Hst. now exists r.
      * intros [r [Hin [Hu [Hst ->]]]]. exists r. split; [reflexivity|].
        apply filter_In. split; [assumption|].
        apply andb_true_iff. split; [now apply Z.eqb_eq | now apply status_eqb_eq].
    + rewrite map_map. cbn [listed_id fst]. now apply sorted_filter.
  - eexists. split; [|split].
    + unfold select_pending, with_timesheets. rewrite Ht. reflexivity.
    + intros r. unfold select_rows. rewrite filter_In, status_eqb_eq. reflexivity.
    + now apply sorted_filter.
  - intros uid pcid dt h Hh. eexists. split; [|split].
    + apply insert_timesheet_ok; auto using hours_ok_check.
    + cbn [id]. pose proof (next_rowid_above (map id t)) as Ha.
      rewrite Forall_forall in *. intros r Hin. apply Ha. now apply in_map.
    + intros where_. unfold select_rows. rewrite filter_app. reflexivity.
Qed.

Lemma listings_in_id_order_witness :
  (exists l,
      select_timesheets_of_user 1 team_store = Ok l team_store /\
      (forall r, In r l <-> In r (rows team_store) /\ user_id r = 1) /\
      StronglySorted Z.lt (map id l) /\ map id l = [1; 3]) /\
  (exists l,
      select_pending team_store = Ok l team_store /\
      (forall r, In r l <-> In r (rows team_store) /\ status r = pending) /\
      StronglySorted Z.lt (map id l) /\ map id l = [2; 3]).
Proof.
  destruct (listings_in_id_order team_seed team_store (rows team_store))
    as [H1 [_ [H3 _]]].
  - constructor.
  - apply team_reachable.
  - reflexivity.
  - split.
    + destruct (H1 1) as [l [E [Hm Hs]]]. exists l. repeat split; try assumption.
      * now apply Hm.
      * now apply Hm.
      * intros [Hr Hu]. apply Hm. now split.
      * assert (E' : select_timesheets_of_user 1 team_store =
                     Ok (select_rows (fun r => user_id r =? 1) (rows team_store)) team_store)
          by reflexivity.
        rewrite E' in E. injection E as <-. reflexivity.
    + destruct H3 as [l [E [Hm Hs]]]. exists l. repeat split; try assumption.
      * now apply Hm.
      * now apply Hm.
      * intros [Hr Hu]. apply Hm. now split.
      * assert (E' : select_pending team_store =
                     Ok (select_rows (fun r => status_eqb (status r) pending)
                                     (rows team_store)) team_store)
          by reflexivity.
        rewrite E' in E. injection E as <-. reflexivity.
Defined.

(** ** The schema *)

(** C10: [init_db] always succeeds; it creates the tables that are absent,
    empty, and keeps the rows of those that exist; on a store that has the
    three tables it changes nothing, so any number of calls in a row leave
    the store as the first call does. *)
Theorem init_db_idempotent (d : db) :
  raised (init_db d) = None /\
  schema_exists (store (init_db d)) /\
  (forall t, users d = Some t -> users (store (init_db d)) = Some t) /\
  (forall t, project_codes d = Some t -> project_codes (store (init_db d)) = Some t) /\
  (forall t, timesheets d = Some t -> timesheets (store (init_db d)) = Some t) /\
  (schema_exists d -> init_db d = Ok tt d) /\
  init_db (store (init_db d)) = Ok tt (store (init_db d)) /\
  (forall n, init_db_times (S n) d = store (init_db d)).
Proof.
  assert (Hfix : forall d1, schema_exists d1 -> init_db d1 = Ok tt d1).
  { intros [[u|] [p|] [t|]] [H1 [H2 H3]]; simpl in *; try reflexivity; congruence. }
  assert (Hex : schema_exists (store (init_db d))).
  { destruct d as [[u|] [p|] [t|]]; repeat split; discriminate. }
  repeat split; try apply Hex.
  - intros t H. simpl. now rewrite H.
  - intros t H. simpl. now rewrite H.
  - intros t H. simpl. now rewrite H.
  - apply Hfix.
  - now apply Hfix.
  - intros n. cbn [init_db_times]. generalize (store (init_db d)), Hex.
    induction n as [|n IH]; intros d1 H1; [reflexivity|].
    cbn [init_db_times]. rewrite (Hfix _ H1). now apply IH.
Qed.

Lemma init_db_idempotent_witness :
  init_db scenario_created = Ok tt scenario_created /\
  init_db_times 3 scenario_seed = store (init_db scenario_seed).
Proof.
  destruct (init_db_idempotent scenario_created) as [_ [_ [_ [_ [_ [H _]]]]]].
  destruct (init_db_idempotent scenario_seed) as [_ [_ [_ [_ [_ [_ [_ H']]]]]]].
  split; [|exact (H' 2%nat)].
  apply H. repeat split; discriminate.
Defined.

(** * Further properties *)

(** ** The script and its dashboards, evaluated *)

Lemma init_db_eval d : init_db d = Ok tt (store (init_db d)).
Proof. reflexivity. Qed.

Lemma init_db_tables d :
  users (store (init_db d)) = Some (users_rows d) /\
  project_codes (store (init_db d)) = Some (project_codes_rows d) /\
  timesheets (store (init_db d)) = Some (rows d).
Proof.
  unfold users_rows, project_codes_rows, rows.
  destruct d as [[u|] [p|] [t|]]; repeat split.
Qed.

Lemma app_dispatch i d :
  app i d =
  (found <- authenticate (username i) (required_role (role i)) ;;
   match found with
   | Some ident => if truthy ident then dashboard i ident else ret tt
   | None => ret tt
   end) (store (init_db d)).
Proof.
  unfold app. rewrite (bind_ok _ _ d tt _ (init_db_eval d)).
  unfold dashboard, required_role. destruct (role i); reflexivity.
Qed.

Lemma authenticate_none d t name ro :
  users d = Some t ->
  (forall r, In r t -> u_username r = name -> u_role r = ro -> False) ->
  authenticate name ro d = Ok None d.
Proof.
  intros Ht Hno. rewrite (authenticate_eval d t) by assumption.
  destruct (select_rows _ t) as [|x l] eqn:E; [reflexivity|].
  assert (Hx : In x (x :: l)) by now left.
  rewrite <- E in Hx. apply filter_In in Hx. destruct Hx as [Hx Hf].
  apply andb_true_iff in Hf. destruct Hf as [Hn Hr].
  apply String.eqb_eq in Hn. apply role_eqb_eq in Hr.
  elim (Hno x Hx Hn Hr).
Qed.

Lemma authenticate_unique d t name ro r :
  users d = Some t -> NoDup (map u_username t) ->
  In r t -> u_username r = name -> u_role r = ro ->
  authenticate name ro d = Ok (Some (u_id r)) d.
Proof.
  intros Ht Hu Hr Hn Hro. rewrite (authenticate_eval d t) by assumption.
  set (f := fun r => String.eqb (u_username r) name && role_eqb (u_role r) ro).
  assert (Hin : In r (select_rows f t)).
  { apply filter_In. split; [assumption|]. unfold f.
    apply andb_true_iff. split; [now apply String.eqb_eq | now apply role_eqb_eq]. }
  destruct (select_rows f t) as [|x l] eqn:E; [destruct Hin|].
  assert (Hx : In x (x :: l)) by now left.
  rewrite <- E in Hx. apply filter_In in Hx. destruct Hx as [Hx Hf].
  apply andb_true_iff in Hf. destruct Hf as [Hxn _]. apply String.eqb_eq in Hxn.
  cbn [map]. do 3 f_equal. apply (nodup_map_inj u_username t); congruence.
Qed.

(** X1: the script opens a dashboard only for an identity it resolved.  When
    no row of [users] has the name typed with the role chosen in the sidebar,
    the run ends after [init_db] and changes nothing else; when a row has
    them (names being unique) the run is the dashboard of that role for that
    row's id, except that an id of 0 counts as no identity. *)
Theorem script_dispatch (i : run_input) (d : db) :
  ((forall r, In r (users_rows d) -> u_username r = username i ->
              u_role r = required_role (role i) -> False) ->
   app i d = Ok tt (store (init_db d))) /\
  (forall r, NoDup (map u_username (users_rows d)) ->
             In r (users_rows d) -> u_username r = username i ->
             u_role r = required_role (role i) ->
             app i d = if u_id r =? 0 then Ok tt (store (init_db d))
                       else dashboard i (u_id r) (store (init_db d))).
Proof.
  destruct (init_db_tables d) as [Hu _].
  split.
  - intros Hno. rewrite app_dispatch.
    rewrite (bind_ok _ _ _ _ _ (authenticate_none _ _ _ _ Hu Hno)). reflexivity.
  - intros r Hn Hr Hname Hrole. rewrite app_dispatch.
    rewrite (bind_ok _ _ _ _ _ (authenticate_unique _ _ _ _ r Hu Hn Hr Hname Hrole)).
    unfold truthy. now destruct (u_id r =? 0).
Qed.

Lemma run_without_identity i d :
  (forall r, In r (users_rows d) -> u_username r = username i ->
             u_role r = required_role (role i) -> False) ->
  run i d = store (init_db d).
Proof.
  intros Hno. destruct (init_db_tables d) as [Hu _].
  unfold run. rewrite app_dispatch.
  rewrite (bind_ok _ _ _ _ _ (authenticate_none _ _ _ _ Hu Hno)). reflexivity.
Qed.

(** X2: while [users] has no row, no run of the script changes the store
    beyond creating the empty tables: the script offers no way to create the
    first user. *)
Theorem no_user_no_change (d0 d : db)
  (H0 : users_rows d0 = []) (Hr : reachable d0 d) :
  d = d0 \/ d = store (init_db d0).
Proof.
  induction Hr as [|d i Hr IH Hi]; [now left|].
  right. rewrite run_without_identity.
  - destruct IH as [->| ->]; [reflexivity|].
    now destruct d0 as [[u|] [p|] [t|]].
  - assert (E : users_rows d = []).
    { destruct IH as [->| ->]; [assumption|].
      destruct (init_db_tables d0) as [Hu _]. unfold users_rows at 1.
      now rewrite Hu. }
    rewrite E. intros r [].
Qed.

Lemma no_user_no_change_witness :
  run alice_creates (run bob_rejects empty_file) = empty_file \/
  run alice_creates (run bob_rejects empty_file) = store (init_db empty_file).
Proof.
  apply (no_user_no_change empty_file); [reflexivity|].
  destruct scenario_inputs_ok as [H1 [H2 _]].
  apply reach_run; [apply reach_run; [apply reach_start | exact H2] | exact H1].
Defined.

(** ** Runs without a click *)

Lemma respond_loop_idle listed mh d : respond_loop listed mh None d = Ok tt d.
Proof.
  induction listed as [|[[[tid dt] st] cm] rest IH]; [reflexivity|].
  cbn [respond_loop resubmit_button]. now rewrite bind_ret.
Qed.

Lemma review_loop_idle listed cf d : review_loop listed cf None d = Ok tt d.
Proof.
  induction listed as [|x rest IH]; [reflexivity|].
  cbn [review_loop approve_button reject_button]. now rewrite !bind_ret.
Qed.

Lemma user_dashboard_idle uid a d :
  schema_exists d -> idle_user_action a = true -> user_dashboard uid a d = Ok tt d.
Proof.
  intros [_ [Hp Ht]] Ha.
  destruct (project_codes d) as [pcs|] eqn:Ep; [|congruence].
  destruct (timesheets d) as [t|] eqn:Et; [|congruence].
  unfold user_dashboard, get_project_codes, fetch_query, run_query, select_id_code,
    with_project_codes.
  unfold bind at 1. rewrite Ep. unfold ret at 1.
  destruct a as [choice dt h [|] | tid choice dt h [|] | tid [|] | | mh [k|]];
    try discriminate; try reflexivity.
  - unfold select_timesheets_of_user, with_timesheets, bind. now rewrite Et.
  - unfold select_rejected_of_user, with_timesheets.
    unfold bind at 1. rewrite Et. unfold ret at 1. apply respond_loop_idle.
Qed.

Lemma manager_dashboard_idle mid a d :
  schema_exists d -> idle_manager_action a = true -> manager_dashboard mid a d = Ok tt d.
Proof.
  intros [Hu [Hp Ht]] Ha.
  destruct (users d) as [u|] eqn:Eu; [|congruence].
  destruct (project_codes d) as [pcs|] eqn:Ep; [|congruence].
  destruct (timesheets d) as [t|] eqn:Et; [|congruence].
  destruct a as [cf [b|] | action cd ds pcid [|] | action name ro uid [|]];
    try discriminate; cbn [manager_dashboard]; unfold fetch_query, run_query.
  - unfold select_pending, with_timesheets.
    unfold bind at 1. rewrite Et. unfold ret at 1. apply review_loop_idle.
  - unfold select_project_codes, with_project_codes, bind. now rewrite Ep.
  - unfold select_users, with_users, bind. now rewrite Eu.
Qed.

Lemma schema_after_init d : schema_exists (store (init_db d)).
Proof. destruct d as [[u|] [p|] [t|]]; repeat split; discriminate. Qed.

Lemma authenticate_returns name ro d :
  users d <> None -> exists found, authenticate name ro d = Ok found d.
Proof.
  intros Hu. destruct (users d) as [t|] eqn:E; [|congruence].
  eexists. now apply (authenticate_eval d t).
Qed.

(** X3: a run in which no form is submitted and no button pressed only
    reads: it returns without raising and leaves the store as [init_db]
    leaves it, whoever is signed in and whatever page is shown. *)
Theorem idle_run_reads_only (i : run_input) (d : db) (Hi : idle i = true) :
  app i d = Ok tt (store (init_db d)).
Proof.
  pose proof (schema_after_init d) as Hs.
  rewrite app_dispatch.
  destruct (authenticate_returns (username i) (required_role (role i)) _ (proj1 Hs))
    as [found Hf].
  rewrite (bind_ok _ _ _ _ _ Hf).
  destruct found as [ident|]; [|reflexivity].
  destruct (truthy ident); [|reflexivity].
  unfold dashboard, idle in *. destruct (role i).
  - now apply user_dashboard_idle.
  - now apply manager_dashboard_idle.
Qed.

Lemma idle_run_reads_only_witness :
  app (mk_input User "alice" (RespondToComments (fun _ => 6%Q) None) idle_manager_page)
      scenario_rejected =
  Ok tt scenario_rejected.
Proof.
  exact (idle_run_reads_only
           (mk_input User "alice" (RespondToComments (fun _ => 6%Q) None) idle_manager_page)
           scenario_rejected eq_refl).
Defined.

(** ** The forms of the user dashboard *)

(** X4: a submitted Modify form always raises and never reaches its UPDATE:
    its select box ranges over the rows [(id, code)], so the lookup of the
    code is given a tuple, which sqlite3 cannot bind, and raises
    ProgrammingError (the class from Python 3.11 on); with no project code
    the lookup finds no row and indexing it raises IndexError.  The store is
    unchanged. *)
Theorem modify_form_raises (d : db) (pcs : list project_codes_row)
  (uid tid : Z) (choice : nat) (dt : string) (h : Q)
  (Hp : project_codes d = Some pcs) :
  user_dashboard uid (ModifyTimesheet tid choice dt h true) d =
  Raise (match pcs with [] => IndexError | _ :: _ => ProgrammingError end) d.
Proof.
  unfold user_dashboard, get_project_codes, fetch_query, run_query, select_id_code,
    with_project_codes.
  unfold bind at 1. rewrite Hp. unfold ret at 1.
  unfold select_project_code_id, with_project_codes, bind. rewrite Hp.
  destruct (by_code pcs) as [|x l] eqn:E.
  - apply (proj1 (by_code_nil pcs)) in E. rewrite E. reflexivity.
  - destruct pcs as [|p pcs]; [discriminate|]. reflexivity.
Qed.

Lemma modify_form_raises_witness :
  user_dashboard 1 (ModifyTimesheet 1 0 "2024-01-06" 4 true) scenario_created =
  Raise ProgrammingError scenario_created.
Proof.
  exact (modify_form_raises scenario_created
           [mk_project_code 1 "ENG" (Some "Engineering"%string)]
           1 1 0%nat "2024-01-06" 4 eq_refl).
Defined.









(** X6: the Delete action with the id of an entry of the signed-in user
    removes that entry and no other, whatever its status; one row is
    affected. *)
Theorem delete_own_entry (d : db) (t : list timesheets_row) (uid : Z)
  (r : timesheets_row)
  (Ht : timesheets d = Some t) (Hp : project_codes d <> None) (Hs : ids_sorted t)
  (Hr : In r t) (Hu : user_id r = uid) :
  exists t',
    user_dashboard uid (DeleteTimesheet (id r) true) d = Ok tt (set_timesheets d t') /\
    (forall x, In x t' <-> In x t /\ x <> r) /\
    rowcount (owned (id r) uid) t = 1%nat.
Proof.
  exists (delete_rows (owned (id r) uid) t).
  assert (Hown : forall x, In x t -> (owned (id r) uid x = true <-> x = r)).
  { intros x Hx. unfold owned. rewrite andb_true_iff, !Z.eqb_eq. split.
    - intros [E _]. now apply (sorted_ids_unique t).
    - intros ->. auto. }
  split; [|split].
  - destruct (project_codes d) as [pcs|] eqn:Ep; [|congruence].
    unfold user_dashboard, get_project_codes, fetch_query, run_query, select_id_code,
      with_project_codes.
    unfold bind at 1. rewrite Ep. unfold ret at 1.
    rewrite (bind_ok _ _ d _ _ (delete_timesheet_of_owner_ok d t (id r) uid Ht)).
    reflexivity.
  - intros x. unfold delete_rows. rewrite filter_In, negb_true_iff. split.
    + intros [Hx Hf]. split; [assumption|]. intros ->.
      rewrite (proj2 (Hown r Hr) eq_refl) in Hf. discriminate.
    + intros [Hx Hne]. split; [assumption|].
      apply not_true_is_false. intros Hf. apply Hne. now apply Hown.
  - unfold rowcount. clear Ht. induction t as [|x t IH]; [destruct Hr|].
    unfold ids_sorted in Hs. cbn [map] in Hs. apply StronglySorted_inv in Hs.
    destruct Hs as [Hs Hx]. cbn [filter].
    destruct (owned (id r) uid x) eqn:E.
    + apply (Hown x (or_introl eq_refl)) in E. subst x. cbn [List.length]. f_equal.
      change (rowcount (owned (id r) uid) t = 0%nat). apply rowcount_none.
      intros y Hy. apply not_true_is_false. intros Hf.
      apply (Hown y (or_intror Hy)) in Hf. subst y.
      rewrite Forall_forall in Hx. specialize (Hx _ (in_map id _ _ Hy)). lia.
    + destruct Hr as [->|Hr].
      * rewrite (proj2 (Hown r (or_introl eq_refl)) eq_refl) in E. discriminate.
      * apply IH; auto. intros y Hy. apply Hown. now right.
Qed.

Lemma delete_own_entry_witness :
  exists t',
    user_dashboard 1 (DeleteTimesheet 1 true) scenario_approved =
      Ok tt (set_timesheets scenario_approved t') /\
    (forall x, In x t' <->
               In x (rows scenario_approved) /\
               x <> mk_timesheet 1 1 1 "2024-01-05" 8 approved (Some "fine"%string)) /\
    rowcount (owned 1 1) (rows scenario_approved) = 1%nat.
Proof.
  apply (delete_own_entry scenario_approved (rows scenario_approved) 1
           (mk_timesheet 1 1 1 "2024-01-05" 8 approved (Some "fine"%string))).
  - reflexivity.
  - discriminate.
  - repeat constructor.
  - left. reflexivity.
  - reflexivity.
Defined.

Lemma rowcount_app {A} (w : A -> bool) (a b : list A) :
  rowcount w (a ++ b) = (rowcount w a + rowcount w b)%nat.
Proof. unfold rowcount. now rewrite filter_app, length_app. Qed.

Lemma delete_rows_app {A} (w : A -> bool) (a b : list A) :
  delete_rows w (a ++ b) = delete_rows w a ++ delete_rows w b.
Proof. unfold delete_rows. apply filter_app. Qed.

(** X7: ids are reused.  Creating an entry and deleting it again as its
    owner restores the store as it was, so the next entry created gets the
    id of the deleted one. *)
Theorem create_then_delete_restores (d : db) (t : list timesheets_row)
  (uid pcid : Z) (dt : string) (h : Q)
  (Ht : timesheets d = Some t) (Hh : hours_input_ok h) :
  let k := next_rowid (map id t) in
  (insert_timesheet uid pcid dt h pending ;;; delete_timesheet_of_owner k uid) d =
    Ok 1%nat d /\
  forall uid' pcid' dt' h', hours_input_ok h' ->
    ((insert_timesheet uid pcid dt h pending ;;; delete_timesheet_of_owner k uid) ;;;
     insert_timesheet uid' pcid' dt' h' pending) d =
    Ok 1%nat (set_timesheets d (t ++ [mk_timesheet k uid' pcid' dt' h' pending None])).
Proof.
  intros k.
  assert (Hfresh : forall x, In x t -> owned k uid x = false).
  { intros x Hx. unfold owned. apply andb_false_iff. left. apply Z.eqb_neq.
    intros E. apply (next_rowid_fresh (map id t)). fold k. rewrite <- E.
    now apply in_map. }
  assert (Hback : (insert_timesheet uid pcid dt h pending ;;;
                   delete_timesheet_of_owner k uid) d = Ok 1%nat d).
  { rewrite (bind_ok _ _ d _ _
               (insert_timesheet_ok d t uid pcid dt h pending Ht (hours_ok_check h Hh))).
    fold k.
    rewrite (delete_timesheet_of_owner_ok _ (t ++ [mk_timesheet k uid pcid dt h pending None]))
      by reflexivity.
    rewrite rowcount_app, delete_rows_app.
    rewrite rowcount_none, delete_rows_none by assumption.
    unfold rowcount, delete_rows, owned. cbn [filter id user_id].
    rewrite !Z.eqb_refl. cbn. rewrite app_nil_r.
    destruct d; simpl in *; now subst. }
  split; [exact Hback|].
  intros uid' pcid' dt' h' Hh'.
  rewrite (bind_ok _ _ d _ _ Hback).
  now apply insert_timesheet_ok; auto using hours_ok_check.
Qed.

Lemma create_then_delete_restores_witness :
  (insert_timesheet 1 1 "2024-01-08" 4 pending ;;; delete_timesheet_of_owner 2 1)
    scenario_approved =
  Ok 1%nat scenario_approved.
Proof.
  destruct (create_then_delete_restores scenario_approved (rows scenario_approved) 1 1
              "2024-01-08" 4 eq_refl (hours_input_ok_dec 4 eq_refl)) as [H _].
  exact H.
Defined.

(** ** Review *)

Lemma listed_pending (t : list timesheets_row) k :
  existsb (has_id k) (select_rows (fun r => status_eqb (status r) pending) t) = true <->
  exists r, In r t /\ id r = k /\ status r = pending.
Proof.
  rewrite existsb_exists. unfold select_rows, has_id. split.
  - intros [r [Hr Hk]]. apply filter_In in Hr. destruct Hr as [Hr Hs].
    exists r. rewrite <- status_eqb_eq, <- Z.eqb_eq. auto.
  - intros [r [Hr [Hk Hs]]]. exists r. rewrite filter_In, status_eqb_eq, Z.eqb_eq. auto.
Qed.

(** X8: Approve or Reject on a pending entry sets its status and replaces
    its comment by the text of the comment box, whatever the comment was and
    also when the text is empty; the other columns and the other rows are
    kept. *)
Theorem review_sets_status_and_comment (d : db) (t : list timesheets_row)
  (mid : Z) (cf : Z -> string) (b : review_button) (r : timesheets_row)
  (Ht : timesheets d = Some t) (Hs : ids_sorted t)
  (Hr : In r t) (Hb : review_id b = id r) (Hst : status r = pending) :
  let d' := store (manager_dashboard mid (ReviewTimesheets cf (Some b)) d) in
  let r' := mk_timesheet (id r) (user_id r) (project_code_id r) (date r) (hours r)
              (review_status b) (Some (cf (id r))) in
  In r' (rows d') /\
  (forall x, In x (rows d') -> id x = id r -> x = r') /\
  (forall x, id x <> id r -> (In x (rows d') <-> In x t)).
Proof.
  intros d' r'.
  assert (Hl : existsb (has_id (id r))
                 (select_rows (fun r => status_eqb (status r) pending) t) = true).
  { apply listed_pending. now exists r. }
  assert (Hd : rows d' =
               update_rows (has_id (id r)) (set_review (review_status b) (cf (id r))) t).
  { unfold d'. rewrite (review_store d t) by assumption.
    destruct b as [k|k]; cbn [review_id review_status] in *; subst k; now rewrite Hl. }
  rewrite Hd. split; [|split].
  - apply in_update_rows. exists r. split; [assumption|].
    unfold has_id. now rewrite Z.eqb_refl.
  - intros x Hx E. destruct (updated_row _ _ _ _ Hs Hr Hx) as [->|[_ Hne]];
      [reflexivity | congruence].
  - intros x Hne. rewrite in_update_rows. split.
    + intros [y [Hy ->]]. unfold has_id in *. destruct (id y =? id r) eqn:E; [|assumption].
      apply Z.eqb_eq in E. elim Hne. exact E.
    + intros Hx. exists x. split; [assumption|].
      unfold has_id. now rewrite (proj2 (Z.eqb_neq _ _) Hne).
Qed.

Lemma review_sets_status_and_comment_witness :
  In (mk_timesheet 1 1 1 "2024-01-05" 6 approved (Some "fine"%string))
     (rows (store (manager_dashboard 2 (ReviewTimesheets (fun _ => "fine"%string)
                                          (Some (approve_ 1)))
                     scenario_resubmitted))).
Proof.
  destruct (review_sets_status_and_comment scenario_resubmitted
              (rows scenario_resubmitted) 2 (fun _ => "fine"%string) (approve_ 1)
              (mk_timesheet 1 1 1 "2024-01-05" 6 pending (Some "missing approval"%string)))
    as [H _].
  - reflexivity.
  - repeat constructor.
  - left. reflexivity.
  - reflexivity.
  - reflexivity.
  - exact H.
Defined.

Lemma review_loop_unlisted listed cf b d :
  existsb (has_id (review_id b)) listed = false ->
  review_loop listed cf (Some b) d = Ok tt d.
Proof.
  induction listed as [|x rest IH]; intros H; [reflexivity|].
  cbn [existsb] in H. apply orb_false_iff in H. destruct H as [Hx Hrest].
  unfold has_id in Hx. rewrite Z.eqb_sym in Hx.
  cbn [review_loop approve_button reject_button].
  destruct b as [k|k]; cbn [review_id] in *; rewrite Hx, !bind_ret; now apply IH.
Qed.

(** X9: a review button for an id that is not the id of a pending entry
    (the entry is approved, rejected or absent) does nothing: the run returns
    and the store is unchanged. *)
Theorem review_only_of_pending (d : db) (t : list timesheets_row)
  (mid : Z) (cf : Z -> string) (b : review_button)
  (Ht : timesheets d = Some t)
  (Hno : forall r, In r t -> id r = review_id b -> status r <> pending) :
  manager_dashboard mid (ReviewTimesheets cf (Some b)) d = Ok tt d.
Proof.
  cbn [manager_dashboard]. unfold fetch_query, run_query, select_pending, with_timesheets.
  unfold bind at 1. rewrite Ht. unfold ret at 1.
  apply review_loop_unlisted.
  apply not_true_is_false. intros H. apply listed_pending in H.
  destruct H as [r [Hr [Hk Hs]]]. exact (Hno r Hr Hk Hs).
Qed.

Lemma review_only_of_pending_witness :
  manager_dashboard 2 (ReviewTimesheets (fun _ => "no"%string) (Some (reject_ 1)))
                    scenario_approved =
  Ok tt scenario_approved.
Proof.
  apply (review_only_of_pending scenario_approved (rows scenario_approved)).
  - reflexivity.
  - intros r [<-|[]] _. discriminate.
Defined.

(** ** Tables with a key and a unique name *)

Section Keyed.
Context {A : Type}.
Variables (key : A -> Z) (name : A -> string).

Lemma keyed_filter (f : A -> bool) (t : list A) :
  StronglySorted Z.lt (map key t) /\ NoDup (map name t) ->
  StronglySorted Z.lt (map key (filter f t)) /\ NoDup (map name (filter f t)).
Proof.
  induction t as [|x t IH]; cbn [map filter]; intros [Hs Hn]; [split; constructor|].
  apply StronglySorted_inv in Hs. destruct Hs as [Hs Hx].
  inversion Hn as [|? ? Hnx Hnt]; subst.
  destruct (IH (conj Hs Hnt)) as [IHs IHn].
  destruct (f x); cbn [map]; [|now split].
  split.
  - constructor; [assumption|].
    rewrite Forall_forall in *. intros k Hk. apply Hx.
    rewrite in_map_iff in *. destruct Hk as [y [Hy Hin]].
    exists y. split; [assumption|]. apply filter_In in Hin. tauto.
  - constructor; [|assumption].
    intros Hin. apply Hnx. rewrite in_map_iff in *. destruct Hin as [y [Hy Hin]].
    exists y. split; [assumption|]. apply filter_In in Hin. tauto.
Qed.

Lemma keyed_insert (t : list A) (new : A) :
  StronglySorted Z.lt (map key t) /\ NoDup (map name t) ->
  key new = next_rowid (map key t) ->
  (forall x, In x t -> name x <> name new) ->
  StronglySorted Z.lt (map key (t ++ [new])) /\ NoDup (map name (t ++ [new])).
Proof.
  intros [Hs Hn] Hk Hfresh. split.
  - pose proof (next_rowid_above (map key t)) as Ha. rewrite <- Hk in Ha. clear Hk Hn Hfresh.
    induction t as [|x t IH]; simpl in *; [repeat constructor|].
    apply StronglySorted_inv in Hs. destruct Hs as [Hs Hx].
    inversion Ha as [|? ? Hlt Ha']; subst. constructor; [now apply IH|].
    rewrite map_app. apply Forall_app. split; [assumption|].
    repeat constructor. assumption.
  - clear Hs Hk. induction t as [|x t IH]; simpl in *; [repeat constructor; auto|].
    inversion Hn as [|? ? Hnx Hnt]; subst. constructor.
    + rewrite map_app, in_app_iff. intros [H|[H|[]]]; [now apply Hnx|].
      apply (Hfresh x (or_introl eq_refl)). now symmetry.
    + apply IH; [assumption|]. intros y Hy. apply Hfresh. now right.
Qed.

Variables (k : Z) (nm : string) (set_ : A -> A).
Hypothesis key_set : forall r, key (set_ r) = key r.
Hypothesis name_set : forall r, name (set_ r) = nm.

Lemma keyed_update (t : list A) :
  StronglySorted Z.lt (map key t) /\ NoDup (map name t) ->
  (forall r r', In r t -> In r' t -> key r = k -> key r' <> key r -> name r' <> nm) ->
  StronglySorted Z.lt (map key (update_rows (fun r => key r =? k) set_ t)) /\
  NoDup (map name (update_rows (fun r => key r =? k) set_ t)).
Proof.
  intros [Hs Hn] Hclash. split.
  - replace (map key (update_rows (fun r => key r =? k) set_ t)) with (map key t);
      [assumption|].
    unfold update_rows. rewrite map_map. apply map_ext.
    intros r. destruct (key r =? k); auto.
  - induction t as [|x t IH]; [constructor|].
    cbn [map] in Hs. apply StronglySorted_inv in Hs. destruct Hs as [Hs Hx].
    inversion Hn as [|? ? Hnx Hnt]; subst.
    rewrite Forall_forall in Hx.
    assert (Hlt : forall y, In y t -> key x < key y).
    { intros y Hy. apply Hx. now apply in_map. }
    unfold update_rows. cbn [map]. fold (update_rows (fun r => key r =? k) set_ t).
    destruct (key x =? k) eqn:E.
    + apply Z.eqb_eq in E.
      rewrite update_rows_none.
      * rewrite name_set. constructor; [|assumption].
        intros Hin. apply in_map_iff in Hin. destruct Hin as [y [Hy Hin]].
        apply (Hclash x y); auto; [now left | now right |].
        specialize (Hlt y Hin). lia.
      * intros y Hy. apply Z.eqb_neq. specialize (Hlt y Hy). lia.
    + apply Z.eqb_neq in E. constructor.
      * intros Hin. apply in_map_iff in Hin. destruct Hin as [y' [Hy' Hin]].
        apply in_update_rows in Hin. destruct Hin as [y [Hy ->]].
        destruct (key y =? k) eqn:Ey.
        -- apply Z.eqb_eq in Ey. rewrite name_set in Hy'.
           apply (Hclash y x); auto; [now right | now left | congruence].
        -- apply Hnx. rewrite <- Hy'. now apply in_map.
      * apply IH; auto. intros r r' Hr Hr'. apply Hclash; now right.
Qed.
End Keyed.

(** ** Managing users *)

Lemma select_rows_none {A} (w : A -> bool) (t : list A) :
  (forall r, In r t -> w r = false) -> select_rows w t = [].
Proof.
  unfold select_rows. induction t as [|x t IH]; intros H; [reflexivity|].
  cbn [filter]. rewrite (H x (or_introl eq_refl)). apply IH.
  intros r Hr. apply H. now right.
Qed.

Lemma manage_users_eval d t mid action name ro uid :
  users d = Some t ->
  manager_dashboard mid (ManageUsers action name ro uid true) d =
  match action with
  | Create => (insert_user name ro ;;; ret tt) d
  | Modify => if truthy uid then (update_user name ro uid ;;; ret tt) d else Ok tt d
  | Delete => if truthy uid then (delete_user uid ;;; ret tt) d else Ok tt d
  end.
Proof.
  intros Ht. cbn [manager_dashboard]. unfold fetch_query, run_query.
  unfold select_users, with_users. unfold bind at 1. rewrite Ht. unfold ret at 1.
  destruct action; [reflexivity | |]; now destruct (truthy uid).
Qed.

Lemma name_taken_iff (t : list users_row) name :
  existsb (fun r => String.eqb (u_username r) name) t = true <->
  exists r, In r t /\ u_username r = name.
Proof.
  rewrite existsb_exists. split; intros [r [Hr Hn]]; exists r; split; auto;
    now apply String.eqb_eq.
Qed.

Lemma insert_user_eval d t name ro :
  users d = Some t ->
  insert_user name ro d =
  if existsb (fun r => String.eqb (u_username r) name) t then Raise IntegrityError d
  else Ok 1%nat (set_users d (t ++ [mk_user (next_rowid (map u_id t)) name ro])).
Proof.
  intros Ht. unfold insert_user, with_users. rewrite Ht.
  now destruct (existsb _ t).
Qed.

Lemma delete_user_eval d t uid :
  users d = Some t ->
  delete_user uid d =
  Ok (rowcount (fun r => u_id r =? uid) t)
     (set_users d (delete_rows (fun r => u_id r =? uid) t)).
Proof. intros Ht. unfold delete_user, with_users. now rewrite Ht. Qed.

Lemma update_user_eval d t name ro uid :
  users d = Some t ->
  update_user name ro uid d =
  if name_clash t name uid then Raise IntegrityError d
  else Ok (rowcount (fun r => u_id r =? uid) t)
          (set_users d (update_rows (fun r => u_id r =? uid)
                                    (fun r => mk_user (u_id r) name ro) t)).
Proof.
  intros Ht. unfold update_user, with_users, name_clash. rewrite Ht.
  now destruct (existsb _ t).
Qed.

Lemma name_clash_iff (t : list users_row) name uid :
  name_clash t name uid = true <->
  exists r r', In r t /\ In r' t /\ u_id r = uid /\ u_id r' <> u_id r /\
               u_username r' = name.
Proof.
  unfold name_clash. rewrite existsb_exists. split.
  - intros [r [Hr H]]. apply andb_true_iff in H. destruct H as [Hk H].
    apply existsb_exists in H. destruct H as [r' [Hr' H]].
    apply andb_true_iff in H. destruct H as [Hne Hn].
    apply negb_true_iff, Z.eqb_neq in Hne. apply Z.eqb_eq in Hk.
    apply String.eqb_eq in Hn. now exists r, r'.
  - intros [r [r' [Hr [Hr' [Hk [Hne Hn]]]]]]. exists r. split; [assumption|].
    apply andb_true_iff. split; [now apply Z.eqb_eq|].
    apply existsb_exists. exists r'. split; [assumption|].
    apply andb_true_iff. split; [|now apply String.eqb_eq].
    now apply negb_true_iff, Z.eqb_neq.
Qed.

(** X10: creating a user with a name that is taken raises IntegrityError
    and changes nothing; with a new name it appends the user under a fresh
    id, after which [authenticate] resolves the name with the given role to
    that id and with the other role to None. *)
Theorem create_user_then_sign_in (d : db) (t : list users_row) (mid uid : Z)
  (name : string) (ro : role_value) (Ht : users d = Some t) :
  ((exists r, In r t /\ u_username r = name) ->
   manager_dashboard mid (ManageUsers Create name ro uid true) d =
   Raise IntegrityError d) /\
  ((forall r, In r t -> u_username r <> name) ->
   let k := next_rowid (map u_id t) in
   let d' := set_users d (t ++ [mk_user k name ro]) in
   manager_dashboard mid (ManageUsers Create name ro uid true) d = Ok tt d' /\
   ~ In k (map u_id t) /\
   authenticate name ro d' = Ok (Some k) d' /\
   forall ro', ro' <> ro -> authenticate name ro' d' = Ok None d').
Proof.
  split.
  - intros Hex. rewrite (manage_users_eval d t) by assumption.
    unfold bind. rewrite (insert_user_eval d t) by assumption.
    now rewrite (proj2 (name_taken_iff t name) Hex).
  - intros Hfresh k d'.
    assert (Hf : existsb (fun r => String.eqb (u_username r) name) t = false).
    { apply not_true_is_false. intros H. apply name_taken_iff in H.
      destruct H as [r [Hr Hn]]. exact (Hfresh r Hr Hn). }
    assert (Hsel : forall ro',
               select_rows (fun r => String.eqb (u_username r) name &&
                                     role_eqb (u_role r) ro')
                           (t ++ [mk_user k name ro]) =
               if role_eqb ro ro' then [mk_user k name ro] else []).
    { intros ro'. unfold select_rows. rewrite filter_app.
      replace (filter _ t) with (@nil users_row).
      - cbn [filter u_username u_role app]. rewrite String.eqb_refl. cbn [andb].
        now destruct (role_eqb ro ro').
      - symmetry. apply select_rows_none.
        intros x Hx. apply andb_false_iff. left. apply String.eqb_neq. now apply Hfresh. }
    split; [|split; [|split]].
    + rewrite (manage_users_eval d t) by assumption.
      unfold bind. rewrite (insert_user_eval d t) by assumption. now rewrite Hf.
    + apply next_rowid_fresh.
    + rewrite (authenticate_eval d' _ name ro eq_refl), Hsel.
      now rewrite (proj2 (role_eqb_eq ro ro) eq_refl).
    + intros ro' Hne. rewrite (authenticate_eval d' _ name ro' eq_refl), Hsel.
      destruct (role_eqb ro ro') eqn:E; [|reflexivity].
      apply role_eqb_eq in E. congruence.
Qed.

Lemma create_user_then_sign_in_witness :
  manager_dashboard 2 (ManageUsers Create "bob" user 1 true) scenario_created =
    Raise IntegrityError scenario_created /\
  authenticate "carol" user
    (set_users scenario_created
       [mk_user 1 "alice" user; mk_user 2 "bob" manager; mk_user 3 "carol" user]) =
  Ok (Some 3)
    (set_users scenario_created
       [mk_user 1 "alice" user; mk_user 2 "bob" manager; mk_user 3 "carol" user]).
Proof.
  split.
  - destruct (create_user_then_sign_in scenario_created (users_rows scenario_created) 2 1
                "bob" user eq_refl) as [H _].
    apply H. exists (mk_user 2 "bob" manager). split; [right; left|]; reflexivity.
  - destruct (create_user_then_sign_in scenario_created (users_rows scenario_created) 2 1
                "carol" user eq_refl) as [_ H].
    apply H. intros r [<-|[<-|[]]]; discriminate.
Defined.

(** X11: deleting a user removes the row, after which the name resolves to
    no identity under either role; the user's timesheet entries are left in
    place, as nothing cascades. *)
Theorem delete_user_locks_out (d : db) (t : list users_row) (mid : Z)
  (name : string) (ro : role_value) (r : users_row)
  (Ht : users d = Some t) (Hn : NoDup (map u_username t)) (Hr : In r t)
  (H0 : u_id r <> 0) :
  let d' := set_users d (delete_rows (fun x => u_id x =? u_id r) t) in
  manager_dashboard mid (ManageUsers Delete name ro (u_id r) true) d = Ok tt d' /\
  timesheets d' = timesheets d /\
  forall ro', authenticate (u_username r) ro' d' = Ok None d'.
Proof.
  intros d'. split; [|split].
  - rewrite (manage_users_eval d t) by assumption.
    unfold truthy. rewrite (proj2 (Z.eqb_neq _ _) H0). cbn [negb].
    unfold bind. now rewrite (delete_user_eval d t).
  - reflexivity.
  - intros ro'. apply (authenticate_none d' _ _ _ eq_refl).
    intros x Hx Hname _. unfold delete_rows in Hx. apply filter_In in Hx.
    destruct Hx as [Hx Hne]. apply negb_true_iff, Z.eqb_neq in Hne.
    apply Hne. f_equal. now apply (nodup_map_inj u_username t).
Qed.

Lemma delete_user_locks_out_witness :
  let d' := set_users scenario_created [mk_user 2 "bob" manager] in
  manager_dashboard 2 (ManageUsers Delete "" user 1 true) scenario_created = Ok tt d' /\
  timesheets d' = timesheets scenario_created /\
  forall ro', authenticate "alice" ro' d' = Ok None d'.
Proof.
  apply (delete_user_locks_out scenario_created (users_rows scenario_created) 2 ""
           user (mk_user 1 "alice" user)).
  - reflexivity.
  - repeat constructor; simpl; intuition discriminate.
  - left. reflexivity.
  - discriminate.
Defined.

(** X12: modifying a user to a name that another user has raises
    IntegrityError and changes nothing; otherwise the row takes the name and
    the role and keeps its id, the table keeps unique ids and names, the new
    name with the new role resolves to that id, and a name given up resolves
    to nothing. *)
Theorem modify_user_renames (d : db) (t : list users_row) (mid : Z)
  (name : string) (ro : role_value) (r : users_row)
  (Ht : users d = Some t) (Hok : users_ok t) (Hr : In r t) (H0 : u_id r <> 0) :
  ((exists x, In x t /\ u_id x <> u_id r /\ u_username x = name) ->
   manager_dashboard mid (ManageUsers Modify name ro (u_id r) true) d =
   Raise IntegrityError d) /\
  ((forall x, In x t -> u_username x = name -> x = r) ->
   let d' := set_users d (update_rows (fun x => u_id x =? u_id r)
                                      (fun x => mk_user (u_id x) name ro) t) in
   manager_dashboard mid (ManageUsers Modify name ro (u_id r) true) d = Ok tt d' /\
   users_ok (users_rows d') /\
   authenticate name ro d' = Ok (Some (u_id r)) d' /\
   (u_username r <> name ->
    forall ro', authenticate (u_username r) ro' d' = Ok None d')).
Proof.
  assert (Hdash : manager_dashboard mid (ManageUsers Modify name ro (u_id r) true) d =
                  (update_user name ro (u_id r) ;;; ret tt) d).
  { rewrite (manage_users_eval d t) by assumption.
    unfold truthy. now rewrite (proj2 (Z.eqb_neq _ _) H0). }
  split.
  - intros [x [Hx [Hne Hname]]].
    rewrite Hdash. unfold bind. rewrite (update_user_eval d t) by assumption.
    replace (name_clash t name (u_id r)) with true; [reflexivity|].
    symmetry. apply name_clash_iff. now exists r, x.
  - intros Hfree d'.
    assert (Hc : name_clash t name (u_id r) = false).
    { apply not_true_is_false. intros H. apply name_clash_iff in H.
      destruct H as [r0 [r' [Hr0 [Hr' [Hk [Hne Hname]]]]]].
      apply Hne. rewrite (Hfree r' Hr' Hname). now symmetry. }
    rewrite Hdash. unfold bind. rewrite (update_user_eval d t) by assumption.
    rewrite Hc.
    assert (Hok' : users_ok (users_rows d')).
    { apply (keyed_update u_id u_username (u_id r) name); auto.
      intros x x' Hx Hx' Hk Hne Hname. apply Hne.
      rewrite (Hfree x' Hx' Hname). now symmetry. }
    assert (Hin : In (mk_user (u_id r) name ro) (users_rows d')).
    { apply in_update_rows. exists r. split; [assumption|]. now rewrite Z.eqb_refl. }
    split; [reflexivity|]. split; [exact Hok'|]. split.
    + apply (authenticate_unique d' _ name ro (mk_user (u_id r) name ro) eq_refl);
        auto. apply Hok'.
    + intros Hold ro'. apply (authenticate_none d' _ _ _ eq_refl).
      intros y' Hy' Hname _. apply in_update_rows in Hy'. destruct Hy' as [y [Hy ->]].
      destruct (u_id y =? u_id r) eqn:E.
      * cbn [u_username] in Hname. congruence.
      * apply Z.eqb_neq in E. apply E. f_equal.
        apply (nodup_map_inj u_username t); auto. apply Hok.
Qed.

Lemma modify_user_renames_witness :
  let d' := set_users scenario_created [mk_user 1 "alice" manager; mk_user 2 "bob" manager] in
  manager_dashboard 2 (ManageUsers Modify "bob" user 1 true) scenario_created =
    Raise IntegrityError scenario_created /\
  manager_dashboard 2 (ManageUsers Modify "alice" manager 1 true) scenario_created =
    Ok tt d' /\
  authenticate "alice" manager d' = Ok (Some 1) d'.
Proof.
  intros d'.
  assert (Hok : users_ok (users_rows scenario_created)).
  { split; repeat constructor; simpl; intuition discriminate. }
  split.
  - destruct (modify_user_renames scenario_created (users_rows scenario_created) 2
                "bob" user (mk_user 1 "alice" user) eq_refl Hok (or_introl eq_refl))
      as [H _]; [discriminate|].
    apply H. exists (mk_user 2 "bob" manager).
    split; [right; left; reflexivity|]. split; [discriminate|reflexivity].
  - destruct (modify_user_renames scenario_created (users_rows scenario_created) 2
                "alice" manager (mk_user 1 "alice" user) eq_refl Hok (or_introl eq_refl))
      as [_ H]; [discriminate|].
    destruct H as [H1 [_ [H2 _]]].
    + intros x [<-|[<-|[]]]; [reflexivity | discriminate].
    + split; assumption.
Defined.

(** ** What a computation keeps *)

Lemma preserves_ret (P : db -> Prop) {A} (a : A) : preserves P (ret a).
Proof. intros d Hd. exact Hd. Qed.

Lemma preserves_raise (P : db -> Prop) {A} (e : exn) : preserves P (@raise A e).
Proof. intros d Hd. exact Hd. Qed.

Lemma preserves_bind (P : db -> Prop) {A B} (m : M A) (k : A -> M B) :
  preserves P m -> (forall a, preserves P (k a)) -> preserves P (bind m k).
Proof.
  intros Hm Hk d Hd. specialize (Hm d Hd). unfold bind.
  destruct (m d) as [a d'|e d']; cbn [store] in *; [now apply Hk | assumption].
Qed.

Lemma preserves_discard (P : db -> Prop) {A} (m : M A) :
  preserves P m -> preserves P (m ;;; ret tt).
Proof. intros Hm. apply preserves_bind; [assumption|]. intros _. apply preserves_ret. Qed.

(** The SELECT statements change nothing. *)
Lemma reads_keep (P : db -> Prop) :
  (forall uid, preserves P (select_timesheets_of_user uid)) /\
  (forall uid, preserves P (select_rejected_of_user uid)) /\
  preserves P select_pending /\
  (forall name ro, preserves P (select_user_id name ro)) /\
  preserves P select_users /\
  preserves P select_id_code /\
  preserves P select_project_codes /\
  (forall param, preserves P (select_project_code_id param)).
Proof.
  repeat split; intros; intros d Hd;
    unfold select_timesheets_of_user, select_rejected_of_user, select_pending,
      select_user_id, select_users, select_id_code, select_project_codes,
      select_project_code_id, with_timesheets, with_users, with_project_codes, ret, raise;
    repeat match goal with
           | |- context [match ?x with _ => _ end] => destruct x
           end;
    exact Hd.
Qed.

Lemma manage_users_keeps_from (P : db -> Prop) mid action name ro uid submitted :
  preserves P (insert_user name ro) ->
  preserves P (update_user name ro uid) ->
  preserves P (delete_user uid) ->
  preserves P (manager_dashboard mid (ManageUsers action name ro uid submitted)).
Proof.
  intros Hins Hupd Hdel.
  destruct (reads_keep P) as [_ [_ [_ [_ [Hs5 _]]]]].
  cbn [manager_dashboard]. apply preserves_bind; [exact Hs5|]. intros _.
  destruct submitted; [|apply preserves_ret].
  destruct action; [| destruct (truthy uid); [|apply preserves_ret] ..];
    apply preserves_discard; assumption.
Qed.

Lemma manage_project_codes_keeps_from (P : db -> Prop) mid action cd ds pcid submitted :
  preserves P (insert_project_code cd ds) ->
  preserves P (update_project_code cd ds pcid) ->
  preserves P (delete_project_code pcid) ->
  preserves P (manager_dashboard mid (ManageProjectCodes action cd ds pcid submitted)).
Proof.
  intros Hins Hupd Hdel.
  destruct (reads_keep P) as [_ [_ [_ [_ [_ [_ [Hs7 _]]]]]]].
  cbn [manager_dashboard]. apply preserves_bind; [exact Hs7|]. intros _.
  destruct submitted; [|apply preserves_ret].
  destruct action; [| destruct (truthy pcid); [|apply preserves_ret] ..];
    apply preserves_discard; assumption.
Qed.

Section WritesTimesheets.
Variable P : db -> Prop.
Hypothesis P_set : forall d t, P d -> P (set_timesheets d t).

Lemma timesheets_statements_keep :
  (forall uid pcid dt h st, preserves P (insert_timesheet uid pcid dt h st)) /\
  (forall pcid dt h k uid, preserves P (update_timesheet_of_owner pcid dt h k uid)) /\
  (forall k uid, preserves P (delete_timesheet_of_owner k uid)) /\
  (forall h k, preserves P (update_resubmit h k)) /\
  (forall st cm k, preserves P (update_review st cm k)).
Proof.
  repeat split; intros; intros d Hd;
    unfold insert_timesheet, update_timesheet_of_owner, delete_timesheet_of_owner,
      update_resubmit, update_review, with_timesheets, bind, commit_timesheets, ret, raise;
    destruct (timesheets d); try assumption;
    try match goal with |- context [if ?b then _ else _] => destruct b end;
    cbn [store]; auto.
Qed.

Lemma respond_loop_keeps listed mh clicked : preserves P (respond_loop listed mh clicked).
Proof.
  destruct timesheets_statements_keep as [_ [_ [_ [Hres _]]]].
  induction listed as [|[[[tid dt] st] cm] rest IH]; [apply preserves_ret|].
  cbn [respond_loop]. apply preserves_bind; [|intros _; exact IH].
  destruct (resubmit_button clicked tid); [|apply preserves_ret].
  apply preserves_discard. apply Hres.
Qed.

Lemma review_loop_keeps listed cf clicked : preserves P (review_loop listed cf clicked).
Proof.
  destruct timesheets_statements_keep as [_ [_ [_ [_ Hrev]]]].
  induction listed as [|x rest IH]; [apply preserves_ret|].
  cbn [review_loop]. apply preserves_bind.
  - destruct (approve_button clicked (id x)); [|apply preserves_ret].
    apply preserves_discard. apply Hrev.
  - intros _. apply preserves_bind; [|intros _; exact IH].
    destruct (reject_button clicked (id x)); [|apply preserves_ret].
    apply preserves_discard. apply Hrev.
Qed.

Lemma user_dashboard_keeps uid a : preserves P (user_dashboard uid a).
Proof.
  destruct timesheets_statements_keep as [Hins [Hupd [Hdel _]]].
  destruct (reads_keep P) as [Hs1 [Hs2 [_ [_ [_ [Hs6 [_ Hs8]]]]]]].
  unfold user_dashboard. apply preserves_bind; [exact Hs6|]. intros pcs.
  destruct a as [choice dt h submitted | tid choice dt h submitted | tid clicked |
                 | mh clicked].
  - destruct submitted; [|apply preserves_ret].
    destruct (selectbox _ choice) as [cd|]; [|apply preserves_raise].
    destruct (dict_get cd _) as [pcid|]; [|apply preserves_raise].
    apply preserves_discard, Hins.
  - destruct submitted; [|apply preserves_ret].
    apply preserves_bind; [apply Hs8|]. intros [|pcid found]; [apply preserves_raise|].
    apply preserves_discard, Hupd.
  - destruct clicked; [|apply preserves_ret]. apply preserves_discard, Hdel.
  - apply preserves_discard, Hs1.
  - apply preserves_bind; [apply Hs2|]. intros listed. apply respond_loop_keeps.
Qed.

Lemma review_keeps mid cf clicked :
  preserves P (manager_dashboard mid (ReviewTimesheets cf clicked)).
Proof.
  destruct (reads_keep P) as [_ [_ [Hs3 _]]].
  cbn [manager_dashboard]. apply preserves_bind; [exact Hs3|].
  intros listed. apply review_loop_keeps.
Qed.
End WritesTimesheets.

Section WritesUsers.
Variable P : db -> Prop.
Hypothesis P_set : forall d t, P d -> P (set_users d t).

Lemma users_statements_keep :
  (forall name ro, preserves P (insert_user name ro)) /\
  (forall name ro uid, preserves P (update_user name ro uid)) /\
  (forall uid, preserves P (delete_user uid)).
Proof.
  repeat split; intros; intros d Hd;
    unfold insert_user, update_user, delete_user, with_users, bind, commit_users,
      ret, raise;
    destruct (users d); try assumption;
    try match goal with |- context [if ?b then _ else _] => destruct b end;
    cbn [store]; auto.
Qed.

Lemma manage_users_keeps mid action name ro uid submitted :
  preserves P (manager_dashboard mid (ManageUsers action name ro uid submitted)).
Proof.
  destruct users_statements_keep as [Hins [Hupd Hdel]].
  now apply manage_users_keeps_from.
Qed.
End WritesUsers.

Section WritesProjectCodes.
Variable P : db -> Prop.
Hypothesis P_set : forall d t, P d -> P (set_project_codes d t).

Lemma project_codes_statements_keep :
  (forall cd ds, preserves P (insert_project_code cd ds)) /\
  (forall cd ds pcid, preserves P (update_project_code cd ds pcid)) /\
  (forall pcid, preserves P (delete_project_code pcid)).
Proof.
  repeat split; intros; intros d Hd;
    unfold insert_project_code, update_project_code, delete_project_code,
      with_project_codes, bind, commit_project_codes, ret, raise;
    destruct (project_codes d); try assumption;
    try match goal with |- context [if ?b then _ else _] => destruct b end;
    cbn [store]; auto.
Qed.

Lemma manage_project_codes_keeps mid action cd ds pcid submitted :
  preserves P (manager_dashboard mid (ManageProjectCodes action cd ds pcid submitted)).
Proof.
  destruct project_codes_statements_keep as [Hins [Hupd Hdel]].
  now apply manage_project_codes_keeps_from.
Qed.
End WritesProjectCodes.

Lemma authenticate_keeps (P : db -> Prop) name ro : preserves P (authenticate name ro).
Proof. intros d Hd. now rewrite authenticate_store. Qed.

Lemma app_keeps (P : db -> Prop) i :
  (forall d, P d -> P (store (init_db d))) ->
  (forall ident, preserves P (dashboard i ident)) ->
  preserves P (app i).
Proof.
  intros Hinit Hdash d Hd. rewrite app_dispatch.
  revert Hd. generalize d. intros d1 Hd1. apply Hinit in Hd1.
  revert Hd1. generalize (store (init_db d1)).
  change (preserves P
            (found <- authenticate (username i) (required_role (role i)) ;;
             match found with
             | Some ident => if truthy ident then dashboard i ident else ret tt
             | None => ret tt
             end)).
  apply preserves_bind; [apply authenticate_keeps|].
  intros [ident|]; [|apply preserves_ret].
  destruct (truthy ident); [apply Hdash | apply preserves_ret].
Qed.

(** A store predicate that no write of a table breaks is kept by every
    dashboard. *)
Lemma dashboard_keeps (P : db -> Prop) i ident :
  (forall d t, P d -> P (set_timesheets d t)) ->
  (forall d t, P d -> P (set_users d t)) ->
  (forall d t, P d -> P (set_project_codes d t)) ->
  preserves P (dashboard i ident).
Proof.
  intros Ht Hu Hp. unfold dashboard. destruct (role i).
  - now apply user_dashboard_keeps.
  - destruct (manager_page i).
    + now apply review_keeps.
    + now apply manage_project_codes_keeps.
    + now apply manage_users_keeps.
Qed.

Lemma schema_set :
  (forall d t, schema_exists d -> schema_exists (set_timesheets d t)) /\
  (forall d t, schema_exists d -> schema_exists (set_users d t)) /\
  (forall d t, schema_exists d -> schema_exists (set_project_codes d t)).
Proof.
  split; [|split]; intros d t [H1 [H2 H3]]; repeat split; cbn; try discriminate;
    assumption.
Qed.

Lemma dashboard_keeps_schema i ident : preserves schema_exists (dashboard i ident).
Proof. destruct schema_set as [H1 [H2 H3]]. now apply dashboard_keeps. Qed.

(** ** The keys of the tables *)

Lemma users_statements_keep_ok name ro uid :
  let P := fun d => users_ok (users_rows d) in
  preserves P (insert_user name ro) /\
  preserves P (update_user name ro uid) /\
  preserves P (delete_user uid).
Proof.
  intros P. split; [|split]; intros d Hd; unfold P in *;
    destruct (users d) as [t|] eqn:Ht;
    try (unfold insert_user, update_user, delete_user, with_users; rewrite Ht; exact Hd);
    assert (Hrows : users_rows d = t) by (unfold users_rows; now rewrite Ht);
    rewrite Hrows in Hd.
  - rewrite (insert_user_eval d t) by assumption.
    destruct (existsb _ t) eqn:E; cbn [store]; [now rewrite Hrows|].
    apply (keyed_insert u_id u_username); auto.
    intros x Hx Hname. cbn [u_username] in Hname.
    assert (H : existsb (fun r => String.eqb (u_username r) name) t = true)
      by (apply name_taken_iff; now exists x).
    congruence.
  - rewrite (update_user_eval d t) by assumption.
    destruct (name_clash t name uid) eqn:E; cbn [store]; [now rewrite Hrows|].
    apply (keyed_update u_id u_username uid name); auto.
    intros r r' Hr Hr' Hk Hne Hname.
    assert (H : name_clash t name uid = true)
      by (apply name_clash_iff; now exists r, r').
    congruence.
  - rewrite (delete_user_eval d t) by assumption. cbn [store].
    now apply (keyed_filter u_id u_username).
Qed.

Lemma code_clash_false (t : list project_codes_row) cd pcid :
  code_clash t cd pcid = false ->
  forall r r', In r t -> In r' t -> p_id r = pcid -> p_id r' <> p_id r -> p_code r' <> cd.
Proof.
  intros Hc r r' Hr Hr' Hk Hne Hcode.
  assert (H : code_clash t cd pcid = true); [|congruence].
  unfold code_clash. apply existsb_exists. exists r. split; [assumption|].
  apply andb_true_iff. split; [now apply Z.eqb_eq|].
  apply existsb_exists. exists r'. split; [assumption|].
  apply andb_true_iff. split; [|now apply String.eqb_eq].
  now apply negb_true_iff, Z.eqb_neq.
Qed.

Lemma project_codes_statements_keep_ok cd ds pcid :
  let P := fun d => project_codes_ok (project_codes_rows d) in
  preserves P (insert_project_code cd ds) /\
  preserves P (update_project_code cd ds pcid) /\
  preserves P (delete_project_code pcid).
Proof.
  intros P. split; [|split]; intros d Hd; unfold P in *;
    destruct (project_codes d) as [t|] eqn:Ht;
    try (unfold insert_project_code, update_project_code, delete_project_code,
           with_project_codes; rewrite Ht; exact Hd);
    assert (Hrows : project_codes_rows d = t) by (unfold project_codes_rows; now rewrite Ht);
    rewrite Hrows in Hd.
  - unfold insert_project_code, with_project_codes. rewrite Ht.
    destruct (existsb _ t) eqn:E; cbn [store raise]; [now rewrite Hrows|].
    apply (keyed_insert p_id p_code); auto.
    intros x Hx Hcode. cbn [p_code] in Hcode.
    assert (H : existsb (fun r => String.eqb (p_code r) cd) t = true).
    { apply existsb_exists. exists x. split; [assumption|]. now apply String.eqb_eq. }
    congruence.
  - unfold update_project_code, with_project_codes. rewrite Ht.
    fold (code_clash t cd pcid).
    destruct (code_clash t cd pcid) eqn:E; cbn [store raise]; [now rewrite Hrows|].
    apply (keyed_update p_id p_code pcid cd); auto.
    now apply code_clash_false.
  - unfold delete_project_code, with_project_codes. rewrite Ht. cbn [store].
    now apply (keyed_filter p_id p_code).
Qed.

Lemma run_keeps_keys i d :
  users_ok (users_rows d) /\ project_codes_ok (project_codes_rows d) ->
  users_ok (users_rows (run i d)) /\ project_codes_ok (project_codes_rows (run i d)).
Proof.
  intros [Hu Hp]. split.
  - apply (app_keeps (fun d => users_ok (users_rows d))); [| |exact Hu].
    + intros d1 H1. destruct (init_db_tables d1) as [E _].
      unfold users_rows at 1. now rewrite E.
    + intros ident. unfold dashboard. destruct (role i).
      * now apply user_dashboard_keeps.
      * destruct (manager_page i) as [cf clicked|action cd ds pcid s|action name ro uid s].
        -- now apply review_keeps.
        -- now apply manage_project_codes_keeps.
        -- destruct (users_statements_keep_ok name ro uid) as [H1 [H2 H3]].
           now apply manage_users_keeps_from.
  - apply (app_keeps (fun d => project_codes_ok (project_codes_rows d))); [| |exact Hp].
    + intros d1 H1. destruct (init_db_tables d1) as [_ [E _]].
      unfold project_codes_rows at 1. now rewrite E.
    + intros ident. unfold dashboard. destruct (role i).
      * now apply user_dashboard_keeps.
      * destruct (manager_page i) as [cf clicked|action cd ds pcid s|action name ro uid s].
        -- now apply review_keeps.
        -- destruct (project_codes_statements_keep_ok cd ds pcid) as [H1 [H2 H3]].
           now apply manage_project_codes_keeps_from.
        -- now apply manage_users_keeps.
Qed.

(** X13: the key constraints of the schema hold along the runs: from a
    store where they hold, every reachable store has [users] with increasing
    ids and distinct names, [project_codes] with increasing ids and distinct
    codes, and [timesheets] with increasing, distinct ids. *)
Theorem keys_stay_unique (d0 d : db)
  (Hu : users_ok (users_rows d0)) (Hp : project_codes_ok (project_codes_rows d0))
  (Ht : ids_sorted (rows d0)) (Hr : reachable d0 d) :
  users_ok (users_rows d) /\ project_codes_ok (project_codes_rows d) /\
  ids_sorted (rows d) /\ NoDup (map id (rows d)).
Proof.
  assert (H : users_ok (users_rows d) /\ project_codes_ok (project_codes_rows d)).
  { induction Hr as [|d i Hr IH Hi]; [now split|]. now apply run_keeps_keys. }
  destruct H as [H1 H2]. pose proof (reachable_sorted d0 d Ht Hr) as Hs.
  repeat split; try assumption; try apply H1; try apply H2.
  unfold ids_sorted in Hs. clear -Hs.
  induction (map id (rows d)) as [|k l IH]; [constructor|].
  apply StronglySorted_inv in Hs. destruct Hs as [Hs Hk]. constructor; auto.
  intros Hin. rewrite Forall_forall in Hk. specialize (Hk k Hin). lia.
Qed.

Lemma keys_stay_unique_witness :
  users_ok (users_rows scenario_resubmitted) /\
  project_codes_ok (project_codes_rows scenario_resubmitted) /\
  ids_sorted (rows scenario_resubmitted) /\ NoDup (map id (rows scenario_resubmitted)).
Proof.
  apply (keys_stay_unique scenario_seed).
  - split; repeat constructor; simpl; intuition discriminate.
  - split; repeat constructor; simpl; tauto.
  - constructor.
  - apply scenario_reachable.
Defined.

(** ** The table a run writes *)

(** X14: a run writes one table at most: a run in the User role and a
    review change no row of [users] or [project_codes]; managing users
    changes no row of [project_codes] or [timesheets]; managing project
    codes changes no row of [users] or [timesheets]. *)
Theorem run_writes_one_table (i : run_input) (d : db) :
  (written i <> T_users -> users_rows (run i d) = users_rows d) /\
  (written i <> T_project_codes ->
   project_codes_rows (run i d) = project_codes_rows d) /\
  (written i <> T_timesheets -> rows (run i d) = rows d).
Proof.
  destruct (init_db_tables d) as [Eu [Ep Et]].
  split; [|split]; intros Hw.
  - apply (app_keeps (fun d' => users_rows d' = users_rows d) i); [| |reflexivity].
    + intros d1 H1. rewrite <- H1. destruct (init_db_tables d1) as [E _].
      unfold users_rows at 1. now rewrite E.
    + intros ident. unfold dashboard, written in *. destruct (role i).
      * now apply user_dashboard_keeps.
      * destruct (manager_page i).
        -- now apply review_keeps.
        -- now apply manage_project_codes_keeps.
        -- congruence.
  - apply (app_keeps (fun d' => project_codes_rows d' = project_codes_rows d) i);
      [| |reflexivity].
    + intros d1 H1. rewrite <- H1. destruct (init_db_tables d1) as [_ [E _]].
      unfold project_codes_rows at 1. now rewrite E.
    + intros ident. unfold dashboard, written in *. destruct (role i).
      * now apply user_dashboard_keeps.
      * destruct (manager_page i).
        -- now apply review_keeps.
        -- congruence.
        -- now apply manage_users_keeps.
  - apply (app_keeps (fun d' => rows d' = rows d) i); [| |reflexivity].
    + intros d1 H1. rewrite <- H1. destruct (init_db_tables d1) as [_ [_ E]].
      unfold rows at 1. now rewrite E.
    + intros ident. unfold dashboard, written in *. destruct (role i); [congruence|].
      destruct (manager_page i).
      * congruence.
      * now apply manage_project_codes_keeps.
      * now apply manage_users_keeps.
Qed.

(** ** The exceptions of a run *)

Lemma raises_ret (Q : exn -> Prop) {A} (a : A) : raises_only Q (ret a).
Proof. intros d e _ H. discriminate. Qed.

Lemma raises_raise (Q : exn -> Prop) {A} (e : exn) : Q e -> raises_only Q (@raise A e).
Proof. intros He d e' _ H. cbn in H. now inversion H; subst. Qed.

Lemma raises_bind (Q : exn -> Prop) {A B} (m : M A) (k : A -> M B) :
  raises_only Q m -> preserves schema_exists m -> (forall a, raises_only Q (k a)) ->
  raises_only Q (bind m k).
Proof.
  intros Hm Hs Hk d e Hd H. specialize (Hm d e Hd). specialize (Hs d Hd).
  unfold bind in H. destruct (m d) as [a d'|e' d']; cbn [store raised] in *.
  - now apply (Hk a d').
  - now apply Hm.
Qed.

Lemma raises_discard (Q : exn -> Prop) {A} (m : M A) :
  raises_only Q m -> preserves schema_exists m -> raises_only Q (m ;;; ret tt).
Proof. intros Hm Hs. apply raises_bind; auto. intros _. apply raises_ret. Qed.

Ltac with_schema d H :=
  let Hu := fresh "Hu" in let Hp := fresh "Hp" in let Ht := fresh "Ht" in
  destruct H as [Hu [Hp Ht]];
  destruct (users d); [|congruence];
  destruct (project_codes d); [|congruence];
  destruct (timesheets d); [|congruence].

Lemma reads_never_raise (Q : exn -> Prop) :
  (forall uid, raises_only Q (select_timesheets_of_user uid)) /\
  (forall uid, raises_only Q (select_rejected_of_user uid)) /\
  raises_only Q select_pending /\
  (forall name ro, raises_only Q (select_user_id name ro)) /\
  raises_only Q select_users /\
  raises_only Q select_id_code /\
  raises_only Q select_project_codes.
Proof.
  repeat split; intros; intros d e Hd H; revert H;
    unfold select_timesheets_of_user, select_rejected_of_user, select_pending,
      select_user_id, select_users, select_id_code, select_project_codes,
      with_timesheets, with_users, with_project_codes, ret;
    with_schema d Hd; discriminate.
Qed.

Lemma timesheets_writes_never_raise (Q : exn -> Prop) :
  (forall uid pcid dt h st, hours_input_ok h ->
                            raises_only Q (insert_timesheet uid pcid dt h st)) /\
  (forall pcid dt h k uid, hours_input_ok h ->
                           raises_only Q (update_timesheet_of_owner pcid dt h k uid)) /\
  (forall k uid, raises_only Q (delete_timesheet_of_owner k uid)) /\
  (forall h k, hours_input_ok h -> raises_only Q (update_resubmit h k)) /\
  (forall st cm k, raises_only Q (update_review st cm k)).
Proof.
  repeat split; intros;
    try match goal with Hh : hours_input_ok _ |- _ => apply hours_ok_check in Hh end;
    intros d e Hd Hraised; revert Hraised;
    unfold insert_timesheet, update_timesheet_of_owner, delete_timesheet_of_owner,
      update_resubmit, update_review, with_timesheets, bind, commit_timesheets, ret, raise;
    with_schema d Hd;
    try match goal with Hh : check_hours _ = true |- _ => rewrite Hh end;
    rewrite ?andb_false_r; discriminate.
Qed.

Lemma manager_writes_raise :
  (forall name ro, raises_only manager_exn (insert_user name ro)) /\
  (forall name ro uid, raises_only manager_exn (update_user name ro uid)) /\
  (forall uid, raises_only manager_exn (delete_user uid)) /\
  (forall cd ds, raises_only manager_exn (insert_project_code cd ds)) /\
  (forall cd ds pcid, raises_only manager_exn (update_project_code cd ds pcid)) /\
  (forall pcid, raises_only manager_exn (delete_project_code pcid)).
Proof.
  repeat split; intros; intros d e Hd H; revert H;
    unfold insert_user, update_user, delete_user, insert_project_code,
      update_project_code, delete_project_code, with_users, with_project_codes, bind,
      commit_users, commit_project_codes, ret, raise;
    with_schema d Hd;
    try match goal with |- context [if ?b then _ else _] => destruct b end;
    cbn; intros H; inversion H; reflexivity.
Qed.

Lemma user_dashboard_raises uid a :
  user_action_ok a -> raises_only user_exn (user_dashboard uid a).
Proof.
  intros Ha.
  destruct schema_set as [Hset _].
  destruct (timesheets_statements_keep schema_exists Hset) as [Kins [Kupd [Kdel [Kres _]]]].
  destruct (reads_keep schema_exists) as [Ks1 [Ks2 [_ [_ [_ [Ks6 [_ Ks8]]]]]]].
  destruct (timesheets_writes_never_raise user_exn) as [Rins [Rupd [Rdel [Rres _]]]].
  destruct (reads_never_raise user_exn) as [Rs1 [Rs2 [_ [_ [_ [Rs6 _]]]]]].
  unfold user_dashboard. apply raises_bind; [exact Rs6 | exact Ks6 |]. intros pcs.
  destruct a as [choice dt h submitted | tid choice dt h submitted | tid clicked |
                 | mh clicked]; cbn [user_action_ok] in Ha.
  - destruct submitted; [|apply raises_ret].
    destruct (selectbox _ choice) as [cd|]; [|apply raises_raise; now left].
    destruct (dict_get cd _) as [pcid|]; [|apply raises_raise; now left].
    apply raises_discard; [now apply Rins | apply Kins].
  - destruct submitted; [|apply raises_ret]. destruct Ha as [_ Hh].
    apply raises_bind; [| apply Ks8 |].
    + intros d e Hd H. revert H.
      unfold fetch_query, run_query, select_project_code_id, with_project_codes.
      destruct Hd as [_ [Hp _]]. destruct (project_codes d); [|congruence].
      destruct (selectbox pcs choice); cbn; intros H; inversion H. right. now left.
    + intros [|pcid found]; [apply raises_raise; right; now right|].
      apply raises_discard; [now apply Rupd | apply Kupd].
  - destruct clicked; [|apply raises_ret].
    apply raises_discard; [apply Rdel | apply Kdel].
  - apply raises_discard; [apply Rs1 | apply Ks1].
  - apply raises_bind; [apply Rs2 | apply Ks2 |]. intros listed.
    induction listed as [|[[[tid dt] st] cm] rest IH]; [apply raises_ret|].
    cbn [respond_loop]. apply raises_bind; [| | intros _; exact IH].
    + destruct (resubmit_button clicked tid); [|apply raises_ret].
      apply raises_discard; [now apply Rres | apply Kres].
    + destruct (resubmit_button clicked tid); [|apply preserves_ret].
      apply preserves_discard, Kres.
Qed.

Lemma manager_dashboard_raises mid a : raises_only manager_exn (manager_dashboard mid a).
Proof.
  destruct schema_set as [Hset [Hsetu Hsetp]].
  destruct (timesheets_statements_keep schema_exists Hset) as [_ [_ [_ [_ Krev]]]].
  destruct (users_statements_keep schema_exists Hsetu) as [Ku1 [Ku2 Ku3]].
  destruct (project_codes_statements_keep schema_exists Hsetp) as [Kp1 [Kp2 Kp3]].
  destruct (reads_keep schema_exists) as [_ [_ [Ks3 [_ [Ks5 [_ [Ks7 _]]]]]]].
  destruct (timesheets_writes_never_raise manager_exn) as [_ [_ [_ [_ Rrev]]]].
  destruct (reads_never_raise manager_exn) as [_ [_ [Rs3 [_ [Rs5 [_ Rs7]]]]]].
  destruct manager_writes_raise as [Ru1 [Ru2 [Ru3 [Rp1 [Rp2 Rp3]]]]].
  destruct a as [cf clicked | action cd ds pcid submitted | action name ro uid submitted];
    cbn [manager_dashboard].
  - apply raises_bind; [exact Rs3 | exact Ks3 |]. intros listed.
    induction listed as [|x rest IH]; [apply raises_ret|].
    cbn [review_loop]. apply raises_bind.
    + destruct (approve_button clicked (id x)); [|apply raises_ret].
      apply raises_discard; [apply Rrev | apply Krev].
    + destruct (approve_button clicked (id x)); [|apply preserves_ret].
      apply preserves_discard, Krev.
    + intros _. apply raises_bind; [| | intros _; exact IH].
      * destruct (reject_button clicked (id x)); [|apply raises_ret].
        apply raises_discard; [apply Rrev | apply Krev].
      * destruct (reject_button clicked (id x)); [|apply preserves_ret].
        apply preserves_discard, Krev.
  - apply raises_bind; [exact Rs7 | exact Ks7 |]. intros _.
    destruct submitted; [|apply raises_ret].
    destruct action; [| destruct (truthy pcid); [|apply raises_ret] ..];
      apply raises_discard; unfold run_query; auto.
  - apply raises_bind; [exact Rs5 | exact Ks5 |]. intros _.
    destruct submitted; [|apply raises_ret].
    destruct action; [| destruct (truthy uid); [|apply raises_ret] ..];
      apply raises_discard; unfold run_query; auto.
Qed.

(** X15: with widget values within their bounds, a run in the User role
    can only end in KeyError, ProgrammingError (the binding error of the
    Modify form) or IndexError, and a run in the Manager role only in
    IntegrityError; no run fails for a missing table, and no user input
    violates a constraint of [timesheets]. *)
Theorem run_exceptions (i : run_input) (d : db) (e : exn)
  (Hi : run_input_ok i) (He : raised (app i d) = Some e) :
  match role i with
  | User => user_exn e
  | Manager => manager_exn e
  end.
Proof.
  pose proof (schema_after_init d) as Hs.
  rewrite app_dispatch in He.
  destruct (authenticate_returns (username i) (required_role (role i)) _ (proj1 Hs))
    as [found Hf].
  rewrite (bind_ok _ _ _ _ _ Hf) in He.
  destruct found as [ident|]; [|discriminate].
  destruct (truthy ident); [|discriminate].
  unfold dashboard in He. destruct Hi as [Hu Hm]. destruct (role i).
  - exact (user_dashboard_raises ident _ Hu _ e Hs He).
  - exact (manager_dashboard_raises ident _ _ e Hs He).
Qed.

Lemma run_exceptions_witness :
  raised (app (mk_input User "alice" (ModifyTimesheet 1 0 "2024-01-06" 4 true)
                 idle_manager_page) scenario_created) = Some ProgrammingError /\
  user_exn ProgrammingError.
Proof.
  split; [reflexivity|].
  exact (run_exceptions
           (mk_input User "alice" (ModifyTimesheet 1 0 "2024-01-06" 4 true) idle_manager_page)
           scenario_created ProgrammingError
           (conj (conj (Z.le_refl 1) (hours_input_ok_dec 4 eq_refl)) I)
           eq_refl).
Defined.

Lemma run_writes_one_table_witness :
  users_rows (run bob_rejects scenario_created) = users_rows scenario_created /\
  project_codes_rows (run bob_rejects scenario_created) =
    project_codes_rows scenario_created /\
  rows (run (mk_input Manager "bob" idle_user_page
               (ManageUsers Delete "" user 1 true)) scenario_created) =
    rows scenario_created.
Proof.
  destruct (run_writes_one_table bob_rejects scenario_created) as [H1 [H2 _]].
  destruct (run_writes_one_table
              (mk_input Manager "bob" idle_user_page (ManageUsers Delete "" user 1 true))
              scenario_created) as [_ [_ H3]].
  split; [|split].
  - apply H1. discriminate.
  - apply H2. discriminate.
  - apply H3. discriminate.
Defined.

Lemma script_dispatch_witness :
  app (mk_input Manager "alice" idle_user_page
         (ManageUsers Delete "" user 2 true)) scenario_created =
    Ok tt scenario_created /\
  app alice_resubmits scenario_rejected =
    user_dashboard 1 (RespondToComments (fun _ => 6%Q) (Some 1)) scenario_rejected.
Proof.
  split.
  - destruct (script_dispatch
                (mk_input Manager "alice" idle_user_page (ManageUsers Delete "" user 2 true))
                scenario_created) as [H _].
    apply H. intros r [<-|[<-|[]]]; discriminate.
  - destruct (script_dispatch alice_resubmits scenario_rejected) as [_ H].
    apply (H (mk_user 1 "alice" user)).
    + repeat constructor; simpl; intuition discriminate.
    + left. reflexivity.
    + reflexivity.
    + reflexivity.
Defined.

(** ** Project codes *)

Lemma manage_project_codes_eval d t mid action cd ds pcid :
  project_codes d = Some t ->
  manager_dashboard mid (ManageProjectCodes action cd ds pcid true) d =
  match action with
  | Create => (insert_project_code cd ds ;;; ret tt) d
  | Modify => if truthy pcid then (update_project_code cd ds pcid ;;; ret tt) d else Ok tt d
  | Delete => if truthy pcid then (delete_project_code pcid ;;; ret tt) d else Ok tt d
  end.
Proof.
  intros Ht. cbn [manager_dashboard]. unfold fetch_query, run_query.
  unfold select_project_codes, with_project_codes. unfold bind at 1. rewrite Ht.
  unfold ret at 1.
  destruct action; [reflexivity | |]; now destruct (truthy pcid).
Qed.

(** X16: deleting a project code that entries refer to succeeds; the
    entries stay as they are and then refer to no row of [project_codes],
    the FOREIGN KEY clause not being enforced. *)
Theorem delete_project_code_orphans_entries (d : db) (pcs : list project_codes_row)
  (mid : Z) (cd ds : string) (p : project_codes_row)
  (Hp : project_codes d = Some pcs) (Hin : In p pcs) (H0 : p_id p <> 0) :
  let d' := set_project_codes d (delete_rows (fun x => p_id x =? p_id p) pcs) in
  manager_dashboard mid (ManageProjectCodes Delete cd ds (p_id p) true) d = Ok tt d' /\
  timesheets d' = timesheets d /\
  forall r, In r (rows d) -> project_code_id r = p_id p ->
            In r (rows d') /\
            forall x, In x (project_codes_rows d') -> p_id x <> project_code_id r.
Proof.
  intros d'. split; [|split].
  - rewrite (manage_project_codes_eval d pcs) by assumption.
    unfold truthy. rewrite (proj2 (Z.eqb_neq _ _) H0). cbn [negb].
    unfold bind, delete_project_code, with_project_codes. now rewrite Hp.
  - reflexivity.
  - intros r Hr Hpc. split; [exact Hr|].
    intros x Hx. cbn in Hx. unfold delete_rows in Hx. apply filter_In in Hx.
    destruct Hx as [_ Hne]. apply negb_true_iff, Z.eqb_neq in Hne. congruence.
Qed.

Lemma delete_project_code_orphans_entries_witness :
  let d' := set_project_codes scenario_created [] in
  manager_dashboard 2 (ManageProjectCodes Delete "" "" 1 true) scenario_created = Ok tt d' /\
  In (mk_timesheet 1 1 1 "2024-01-05" 8 pending None) (rows d').
Proof.
  destruct (delete_project_code_orphans_entries scenario_created
              (project_codes_rows scenario_created) 2 "" ""
              (mk_project_code 1 "ENG" (Some "Engineering"%string)))
    as [H1 [_ H2]].
  - reflexivity.
  - left. reflexivity.
  - discriminate.
  - split; [exact H1|].
    apply (H2 (mk_timesheet 1 1 1 "2024-01-05" 8 pending None)); [left|]; reflexivity.
Defined.












